(** * Hypothesis testing for the cycling data: the statistical decision pipeline

    A shallow embedding of [hypothesis_testing.py]: the assumption checks
    ([test_normality], [test_variance_homogeneity]), the one-way analysis
    ([research_question_1]) and the two-way analysis with its stratified
    re-analysis ([research_question_2]).

    Python floats are IEEE binary64 numbers and are modelled by Rocq's
    primitive floats, so comparisons with NaN behave as in Python.  The
    routines of SciPy and statsmodels are not code of this repository: they
    are the fields of an interface record [StatsLib], and each of them may
    raise.  Exceptions are values of the error monad [res]; the code has no
    [try] block, so an exception of a routine reaches the caller unchanged.

    The column [points] holds floats (a value that is not a number was
    coerced to NaN when the file was preprocessed) and the two class columns
    hold strings.  What a function prints is kept as data: besides the dict
    it returns, [research_question_1] yields its verdicts and its post-hoc
    rows, and [research_question_2] its dict [stage_results]. *)

From Stdlib Require Import List ZArith String Ascii Bool Lia Floats
  Permutation.
Import ListNotations.

Set Warnings "-inexact-float".
Local Open Scope Z_scope.

(** ** Exceptions and the error monad *)

Inductive exn : Type :=
| ZeroDivisionError
| IndexError
| KeyError (key : string)
| LibraryError (msg : string).

Inductive res (A : Type) : Type :=
| Ok (a : A)
| Raise (e : exn).

Arguments Ok {A} a.
Arguments Raise {A} e.

Definition bind {A B : Type} (m : res A) (k : A -> res B) : res B :=
  match m with
  | Ok a => k a
  | Raise e => Raise e
  end.

Notation "x <- m ;; k" := (bind m (fun x => k))
  (at level 61, m at next level, right associativity).
Notation "' p <- m ;; k" := (bind m (fun x => let 'p := x in k))
  (at level 61, p pattern, m at next level, right associativity).

Definition returns {A : Type} (m : res A) : Prop := exists a, m = Ok a.

Fixpoint mapM {A B : Type} (f : A -> res B) (l : list A) : res (list B) :=
  match l with
  | [] => Ok []
  | a :: l' => b <- f a ;; bs <- mapM f l' ;; Ok (b :: bs)
  end.

(** ** Data model *)

Abbreviation label := string (only parsing).
Abbreviation sample := (list float) (only parsing).

Record observation : Type := mkObservation {
  points : float;
  rider_class : label;
  stage_class : label
}.

Abbreviation dataframe := (list observation) (only parsing).

Definition len {A : Type} (l : list A) : Z := Z.of_nat (List.length l).

(** [l[i]] and [l[-1]] of Python: [IndexError] outside the list. *)
Definition getitem {A : Type} (l : list A) (i : nat) : res A :=
  match nth_error l i with
  | Some a => Ok a
  | None => Raise IndexError
  end.

Fixpoint last_item {A : Type} (l : list A) : res A :=
  match l with
  | [] => Raise IndexError
  | [a] => Ok a
  | _ :: l' => last_item l'
  end.

(** [Series.unique()]: the distinct values in order of first appearance. *)
Fixpoint unique_from (seen : list label) (xs : list label) : list label :=
  match xs with
  | [] => []
  | x :: xs' =>
      if existsb (String.eqb x) seen then unique_from seen xs'
      else x :: unique_from (x :: seen) xs'
  end.

Definition unique (xs : list label) : list label := unique_from [] xs.

(** [df[df[col] == cls]] and [df[...]['points'].values]. *)
Definition where_rider_class (cls : label) (df : dataframe) : dataframe :=
  filter (fun o => String.eqb (rider_class o) cls) df.

Definition where_stage_class (cls : label) (df : dataframe) : dataframe :=
  filter (fun o => String.eqb (stage_class o) cls) df.

Definition points_values (df : dataframe) : sample := map points df.

(** The int-to-float conversion of [0.05 / num_comparisons]: the nearest
    binary64 number. *)
Definition float_of_int (n : Z) : float :=
  SF2Prim (binary_normalize prec emax n 0 false).

Definition truediv (x : float) (n : Z) : res float :=
  if n =? 0 then Raise ZeroDivisionError else Ok (x / float_of_int n)%float.

(** ** The interface of the statistical libraries *)

Record AndersonResult : Type := mkAnderson {
  ad_statistic : float;
  ad_critical_values : list float;
  ad_significance_level : list float
}.

Record TukeyRow : Type := mkTukeyRow {
  tk_group1 : label;
  tk_group2 : label;
  tk_meandiff : float;
  tk_p_adj : float;
  tk_reject : bool
}.

Record AnovaRow : Type := mkAnovaRow {
  sum_sq : float;
  df_col : float;
  F_value : float;
  PR_F : float
}.

Definition AnovaTable := list (string * AnovaRow).

Record StatsLib : Type := mkStatsLib {
  shapiro : sample -> res (float * float);
  anderson : sample -> res AndersonResult;
  levene : list sample -> res (float * float);
  f_oneway : list sample -> res (float * float);
  kruskal : list sample -> res (float * float);
  mannwhitneyu : sample -> sample -> string -> res (float * float);
  pairwise_tukeyhsd : sample -> list label -> float -> res (list TukeyRow);
  fitted_model : Type;
  ols_fit : string -> dataframe -> res fitted_model;
  anova_lm : fitted_model -> Z -> res AnovaTable
}.

(** [anova_table.loc[row, 'PR(>F)']]. *)
Fixpoint loc (tbl : AnovaTable) (row : string) : res AnovaRow :=
  match tbl with
  | [] => Raise (KeyError row)
  | (k, r) :: tbl' => if String.eqb k row then Ok r else loc tbl' row
  end.

(** ** Verdicts *)

Record NormalityResult : Type := mkNormality {
  n_test : string;
  n_statistic : float;
  n_critical_value : option float;
  n_p_value : option float;
  n_is_normal : bool;
  n_alpha : float
}.

Record VarianceResult : Type := mkVariance {
  v_test : string;
  v_statistic : float;
  v_p_value : float;
  v_equal_variances : bool;
  v_alpha : float
}.

Definition alpha_default : float := 0.05%float.

(** One row of [posthoc_results]. *)
Record PairResult : Type := mkPair {
  group1 : label;
  group2 : label;
  u_statistic : float;
  pair_p_value : float;
  pair_significant : bool
}.

(** The post-hoc block that ran, with what it printed. *)
Inductive PostHoc : Type :=
| TukeyHSD (tukey_result : list TukeyRow)
| MannWhitneyU (num_comparisons : Z) (bonferroni_alpha : float)
               (posthoc_results : list PairResult).

(** The dict returned by [research_question_1]: its statistic is under
    ['f_statistic'] or ['h_statistic']. *)
Inductive OneWayResult : Type :=
| ANOVA (f_statistic p_value : float) (significant : bool)
| KruskalWallis (h_statistic p_value : float) (significant : bool).

Definition ow_test (r : OneWayResult) : string :=
  match r with
  | ANOVA _ _ _ => "ANOVA"
  | KruskalWallis _ _ _ => "Kruskal-Wallis"
  end.

Definition ow_statistic (r : OneWayResult) : float :=
  match r with ANOVA s _ _ | KruskalWallis s _ _ => s end.

Definition ow_p_value (r : OneWayResult) : float :=
  match r with ANOVA _ p _ | KruskalWallis _ p _ => p end.

Definition ow_significant (r : OneWayResult) : bool :=
  match r with ANOVA _ _ b | KruskalWallis _ _ b => b end.

(** The locals of [research_question_1] that it prints and does not return. *)
Record OneWayReport : Type := mkReport {
  rep_normality : list (label * NormalityResult);
  rep_variance : VarianceResult;
  rep_posthoc : option PostHoc
}.

(** One entry of the dict [stage_results]. *)
Record StageResult : Type := mkStage {
  s_test : string;
  s_statistic : float;
  s_p_value : float;
  s_significant : bool
}.

(** The dict returned by [research_question_2]. *)
Record TwoWayResult : Type := mkTwoWay {
  interaction_p : float;
  rider_main_p : float;
  stage_main_p : float;
  anova_table : AnovaTable
}.

Definition two_way_formula : string :=
  "points ~ C(rider_class) + C(stage_class) + C(rider_class):C(stage_class)".

Section Pipeline.

Context (lib : StatsLib).

(** ** [test_normality] *)
Definition test_normality (data : sample) (alpha : float)
  : res (option NormalityResult) :=
  if 5000 <? len data then
    result <- anderson lib data ;;
    critical <- last_item (ad_critical_values result) ;;
    let is_normal := (ad_statistic result <? critical)%float in
    Ok (Some {| n_test := "Anderson-Darling";
                n_statistic := ad_statistic result;
                n_critical_value := Some critical;
                n_p_value := None;
                n_is_normal := is_normal;
                n_alpha := alpha |})
  else
    let data_clean := filter PrimFloat.is_finite data in
    if len data_clean <? 3 then Ok None
    else
      '(statistic, p_value) <- shapiro lib data_clean ;;
      let is_normal := (alpha <? p_value)%float in
      Ok (Some {| n_test := "Shapiro-Wilk";
                  n_statistic := statistic;
                  n_critical_value := None;
                  n_p_value := Some p_value;
                  n_is_normal := is_normal;
                  n_alpha := alpha |}).

(** ** [test_variance_homogeneity] *)
Definition test_variance_homogeneity (groups : list sample) (alpha : float)
  : res VarianceResult :=
  '(statistic, p_value) <- levene lib groups ;;
  let equal_variances := (alpha <? p_value)%float in
  Ok {| v_test := "Levene's";
        v_statistic := statistic;
        v_p_value := p_value;
        v_equal_variances := equal_variances;
        v_alpha := alpha |}.

(** ** [research_question_1] *)

(** The loop filling the dict [normality_results]: a group without a verdict
    ([None]) gets no entry.  The labels are distinct, so the dict is the list
    of its entries in insertion order. *)
Fixpoint normality_by_class (zipped : list (label * sample))
  : res (list (label * NormalityResult)) :=
  match zipped with
  | [] => Ok []
  | (cls, group) :: rest =>
      result <- test_normality group alpha_default ;;
      entries <- normality_by_class rest ;;
      Ok (match result with
          | Some r => (cls, r) :: entries
          | None => entries
          end)
  end.

(** [all([...]) if normality_results else False]. *)
Definition rq1_all_normal (normality_results : list (label * NormalityResult))
  : bool :=
  match normality_results with
  | [] => false
  | _ => forallb (fun e => n_is_normal (snd e)) normality_results
  end.

(** The Tukey HSD block: the groups are concatenated, each value with the
    label of its group. *)
Definition tukey_posthoc (rider_classes : list label) (groups : list sample)
  : res PostHoc :=
  let zipped := combine rider_classes groups in
  let tukey_data := flat_map snd zipped in
  let tukey_labels :=
    flat_map (fun e => repeat (fst e) (List.length (snd e))) zipped in
  tukey_result <- pairwise_tukeyhsd lib tukey_data tukey_labels 0.05%float ;;
  Ok (TukeyHSD tukey_result).

(** [for i in range(k): for j in range(i + 1, k)]. *)
Definition index_pairs (k : nat) : list (nat * nat) :=
  flat_map (fun i => map (pair i) (seq (S i) (k - S i))) (seq 0 k).

Definition mann_whitney_pair (rider_classes : list label)
  (groups : list sample) (bonferroni_alpha : float) (ij : nat * nat)
  : res PairResult :=
  let '(i, j) := ij in
  gi <- getitem groups i ;;
  gj <- getitem groups j ;;
  '(u_stat, p_val) <- mannwhitneyu lib gi gj "two-sided" ;;
  let significant := (p_val <? bonferroni_alpha)%float in
  ci <- getitem rider_classes i ;;
  cj <- getitem rider_classes j ;;
  Ok {| group1 := ci;
        group2 := cj;
        u_statistic := u_stat;
        pair_p_value := p_val;
        pair_significant := significant |}.

(** The Mann-Whitney U block with its Bonferroni correction. *)
Definition mann_whitney_posthoc (rider_classes : list label)
  (groups : list sample) : res PostHoc :=
  let num_comparisons := len rider_classes * (len rider_classes - 1) / 2 in
  bonferroni_alpha <- truediv 0.05%float num_comparisons ;;
  posthoc_results <-
    mapM (mann_whitney_pair rider_classes groups bonferroni_alpha)
         (index_pairs (List.length rider_classes)) ;;
  Ok (MannWhitneyU num_comparisons bonferroni_alpha posthoc_results).

Definition rider_groups (df : dataframe) (rider_classes : list label)
  : list sample :=
  map (fun cls => points_values (where_rider_class cls df)) rider_classes.

(** The returned dict, with the locals that are printed only. *)
Definition research_question_1 (df : dataframe)
  : res (OneWayResult * OneWayReport) :=
  let rider_classes := unique (map rider_class df) in
  let groups := rider_groups df rider_classes in
  normality_results <- normality_by_class (combine rider_classes groups) ;;
  variance_test <- test_variance_homogeneity groups alpha_default ;;
  let all_normal := rq1_all_normal normality_results in
  if all_normal && v_equal_variances variance_test then
    '(f_statistic, p_value) <- f_oneway lib groups ;;
    posthoc <- (if (p_value <? 0.05)%float
                then ph <- tukey_posthoc rider_classes groups ;; Ok (Some ph)
                else Ok None) ;;
    Ok (ANOVA f_statistic p_value (p_value <? 0.05)%float,
        {| rep_normality := normality_results;
           rep_variance := variance_test;
           rep_posthoc := posthoc |})
  else
    '(h_statistic, p_value) <- kruskal lib groups ;;
    posthoc <- (if (p_value <? 0.05)%float
                then ph <- mann_whitney_posthoc rider_classes groups ;;
                     Ok (Some ph)
                else Ok None) ;;
    Ok (KruskalWallis h_statistic p_value (p_value <? 0.05)%float,
        {| rep_normality := normality_results;
           rep_variance := variance_test;
           rep_posthoc := posthoc |}).

(** ** [research_question_2] *)

(** The normality loop of a stratum: [all_normal] starts as [True] and the
    loop stops at the first verdict that is not normal. *)
Fixpoint stage_all_normal (zipped : list (label * sample)) : res bool :=
  match zipped with
  | [] => Ok true
  | (cls, group) :: rest =>
      result <- test_normality group alpha_default ;;
      match result with
      | Some r => if negb (n_is_normal r) then Ok false
                  else stage_all_normal rest
      | None => stage_all_normal rest
      end
  end.

(** The body of the loop over the stage classes, on the rows of one stage
    class. *)
Definition stage_test (stage_df : dataframe) : res StageResult :=
  let rider_classes := unique (map rider_class stage_df) in
  let groups := rider_groups stage_df rider_classes in
  all_normal <- stage_all_normal (combine rider_classes groups) ;;
  variance_test <- test_variance_homogeneity groups alpha_default ;;
  if all_normal && v_equal_variances variance_test then
    '(f_stat, p_val) <- f_oneway lib groups ;;
    Ok {| s_test := "ANOVA";
          s_statistic := f_stat;
          s_p_value := p_val;
          s_significant := (p_val <? 0.05)%float |}
  else
    '(h_stat, p_val) <- kruskal lib groups ;;
    Ok {| s_test := "Kruskal-Wallis";
          s_statistic := h_stat;
          s_p_value := p_val;
          s_significant := (p_val <? 0.05)%float |}.

Definition stage_entry (df : dataframe) (stage_cls : label)
  : res (label * StageResult) :=
  r <- stage_test (where_stage_class stage_cls df) ;;
  Ok (stage_cls, r).

(** The returned dict, with the local dict [stage_results], which is printed
    only: [None] when the loop over the stage classes does not run. *)
Definition research_question_2 (df : dataframe)
  : res (TwoWayResult * option (list (label * StageResult))) :=
  model <- ols_fit lib two_way_formula df ;;
  anova_table <- anova_lm lib model 2 ;;
  interaction_row <- loc anova_table "C(rider_class):C(stage_class)" ;;
  rider_row <- loc anova_table "C(rider_class)" ;;
  stage_row <- loc anova_table "C(stage_class)" ;;
  let interaction_p := PR_F interaction_row in
  let rider_main_p := PR_F rider_row in
  let stage_main_p := PR_F stage_row in
  stage_results <- (if (interaction_p <? 0.05)%float
                    then rs <- mapM (stage_entry df)
                                    (unique (map stage_class df)) ;;
                         Ok (Some rs)
                    else Ok None) ;;
  Ok ({| interaction_p := interaction_p;
         rider_main_p := rider_main_p;
         stage_main_p := stage_main_p;
         anova_table := anova_table |},
      stage_results).

(** ** [main] *)
Definition main (df : dataframe) :=
  rq1_results <- research_question_1 df ;;
  rq2_results <- research_question_2 df ;;
  Ok (rq1_results, rq2_results).

End Pipeline.

(** * [preprocess_cycling_data.py]: the rows of the text file

    The reader ([csv.reader] with a space as delimiter) yields the rows of
    the file, each a list of fields.  A field is a Python [str], here the
    list of its characters; [isspace] is [str.isspace] on a character.  The
    construction of the data frame ([pd.DataFrame], [pd.to_numeric],
    [to_csv]) is pandas' own and may raise. *)

Section Preprocess.

Context (isspace : ascii -> bool).
Context {DataFrame : Type}.
Context (build_frame : list (list ascii) -> list (list (list ascii))
                       -> res DataFrame).

Fixpoint lstrip (s : list ascii) : list ascii :=
  match s with
  | [] => []
  | c :: s' => if isspace c then lstrip s' else s
  end.

Definition rstrip (s : list ascii) : list ascii := rev (lstrip (rev s)).

(** [field.strip()]. *)
Definition strip (s : list ascii) : list ascii := rstrip (lstrip s).

(** The truth value of a [str] or a [list]: it is not empty. *)
Definition truthy {A : Type} (l : list A) : bool :=
  match l with
  | [] => false
  | _ :: _ => true
  end.

(** [[field.strip() for field in row if field.strip()]]. *)
Definition clean_row (row : list (list ascii)) : list (list ascii) :=
  map strip (filter (fun field => truthy (strip field)) row).

(** The loop over the reader: the rows that are not empty once cleaned. *)
Fixpoint read_rows (reader : list (list (list ascii)))
  : list (list (list ascii)) :=
  match reader with
  | [] => []
  | row :: rest =>
      let row' := clean_row row in
      if truthy row' then row' :: read_rows rest else read_rows rest
  end.

Definition preprocess_cycling_data (reader : list (list (list ascii)))
  : res (option DataFrame) :=
  let data := read_rows reader in
  if 0 <? len data then
    header <- getitem data 0 ;;
    let rows := skipn 1 data in
    df <- build_frame header rows ;;
    Ok (Some df)
  else Ok None.

End Preprocess.

(** * The vocabulary of the properties *)

(** The Anderson-Darling result lists one critical value per significance
    level, the strictest (smallest) level last, as SciPy documents it
    (15%, 10%, 5%, 2.5%, 1%). *)
Definition strictest_level_last (r : AndersonResult) : Prop :=
  List.length (ad_critical_values r) = List.length (ad_significance_level r)
  /\ exists l, last_item (ad_significance_level r) = Ok l
       /\ Forall (fun l' => (l <=? l')%float = true) (ad_significance_level r).

(** The unordered pairs of a list, each element with the later ones. *)
Fixpoint unordered_pairs {A : Type} (l : list A) : list (A * A) :=
  match l with
  | [] => []
  | x :: l' => map (pair x) l' ++ unordered_pairs l'
  end.

(** The pairs [o <= i < j < o + k] in the order of the two loops. *)
Definition index_pairs_from (o k : nat) : list (nat * nat) :=
  flat_map (fun i => map (pair i) (seq (S i) (o + k - S i))) (seq o k).

(** One comparison, on two labelled groups. *)
Definition pair_test (lib : StatsLib) (alpha : float)
  (pr : (label * sample) * (label * sample)) : res PairResult :=
  up <- mannwhitneyu lib (snd (fst pr)) (snd (snd pr)) "two-sided" ;;
  Ok (mkPair (fst (fst pr)) (fst (snd pr)) (fst up) (snd up)
             (snd up <? alpha)%float).

(** The entries of the groups that got a verdict. *)
Fixpoint available {A B : Type} (l : list (A * option B)) : list (A * B) :=
  match l with
  | [] => []
  | (a, Some b) :: l' => (a, b) :: available l'
  | (_, None) :: l' => available l'
  end.

(** [verdicts zipped rs]: [rs] are the outcomes of [test_normality] on the
    groups of [zipped], in order. *)
Definition verdicts (lib : StatsLib) (zipped : list (label * sample))
  (rs : list (option NormalityResult)) : Prop :=
  Forall2 (fun cg r => test_normality lib (snd cg) alpha_default = Ok r)
          zipped rs.

(** The routines that [research_question_1] may call return on its
    groups. *)
Definition one_way_routines_return (lib : StatsLib)
  (rider_classes : list label) (groups : list sample) : Prop :=
  returns (f_oneway lib groups)
  /\ returns (kruskal lib groups)
  /\ returns (tukey_posthoc lib rider_classes groups)
  /\ (forall x y, In x groups -> In y groups ->
                  returns (mannwhitneyu lib x y "two-sided")).

(** How a normality verdict is decided: by its p-value when it has one
    (Shapiro-Wilk), by its critical value otherwise (Anderson-Darling). *)
Definition verdict_passes (v : NormalityResult) : bool :=
  match n_p_value v, n_critical_value v with
  | Some p, _ => (0.05 <? p)%float
  | None, Some c => (n_statistic v <? c)%float
  | None, None => false
  end.

(** No verdict that exists fails: a missing verdict counts for nothing. *)
Definition known_normal (rs : list (option NormalityResult)) : bool :=
  forallb (fun r => match r with
                    | Some v => n_is_normal v
                    | None => true
                    end) rs.

Definition some_known (rs : list (option NormalityResult)) : bool :=
  existsb (fun r => match r with
                    | Some _ => true
                    | None => false
                    end) rs.

(** The selection in the words of the claim: every available verdict has a
    p-value strictly greater than 0.05, and so has Levene's verdict. *)
Definition stated_parametric (nr : list (label * NormalityResult))
  (vt : VarianceResult) : bool :=
  forallb (fun e => match n_p_value (snd e) with
                    | Some p => (0.05 <? p)%float
                    | None => false
                    end) nr
  && (0.05 <? v_p_value vt)%float.

(** The library with its two post-hoc routines replaced by routines that
    always raise. *)
Definition without_posthoc (lib : StatsLib) : StatsLib :=
  {| shapiro := shapiro lib;
     anderson := anderson lib;
     levene := levene lib;
     f_oneway := f_oneway lib;
     kruskal := kruskal lib;
     mannwhitneyu := fun _ _ _ => Raise (LibraryError "post-hoc routine");
     pairwise_tukeyhsd := fun _ _ _ => Raise (LibraryError "post-hoc routine");
     fitted_model := fitted_model lib;
     ols_fit := ols_fit lib;
     anova_lm := anova_lm lib |}.

(** A group gets a normality verdict when it has more than 5000 values or
    at least three finite values. *)
Definition has_verdict (group : sample) : bool :=
  (5000 <? len group) || (3 <=? len (filter PrimFloat.is_finite group)).

(** The two locals handed to Tukey's routine. *)
Definition tukey_data (zipped : list (label * sample)) : sample :=
  flat_map snd zipped.

Definition tukey_labels (zipped : list (label * sample)) : list label :=
  flat_map (fun e => repeat (fst e) (List.length (snd e))) zipped.

(** Levene's routine rejects fewer than two samples, as SciPy's does. *)
Definition levene_needs_two_samples (lib : StatsLib) : Prop :=
  forall groups, len groups < 2 -> exists e, levene lib groups = Raise e.

(** A field with nothing but white space in it. *)
Definition blank (isspace : ascii -> bool) (field : list ascii) : Prop :=
  strip isspace field = [].

(** A field that [strip] leaves as it is and that is not empty. *)
Definition stripped (isspace : ascii -> bool) (field : list ascii) : Prop :=
  field <> []
  /\ (forall c, hd_error field = Some c -> isspace c = false)
  /\ (forall c, hd_error (rev field) = Some c -> isspace c = false).

(** * Scenarios *)

(** ** Libraries with fixed outcomes

    Instances of [StatsLib] for the worked scenarios.  The size guards are
    those SciPy documents: [shapiro] needs three values, and [levene],
    [f_oneway] and [kruskal] need two groups. *)

Definition fixed_outcome {A : Type} (enough : bool) (msg : string)
  (outcome : float * float) (_ : A) : res (float * float) :=
  if enough then Ok outcome else Raise (LibraryError msg).

Definition norm_critical_values : list float :=
  [0.576; 0.656; 0.787; 0.918; 1.092]%float.

Definition norm_significance_level : list float :=
  [15; 10; 5; 2.5; 1]%float.

Definition fixed_lib (sw : float * float) (ad_stat : float)
  (lev f kw mw : float * float)
  (tukey : list TukeyRow) (tbl : AnovaTable) : StatsLib :=
  {| shapiro := fun x =>
       fixed_outcome (3 <=? len x) "Data must be at least length 3." sw x;
     anderson := fun _ =>
       Ok (mkAnderson ad_stat norm_critical_values
                      norm_significance_level);
     levene := fun gs =>
       fixed_outcome (2 <=? len gs)
         "Must enter at least two input sample vectors." lev gs;
     f_oneway := fun gs =>
       fixed_outcome (2 <=? len gs) "at least two inputs are required" f gs;
     kruskal := fun gs =>
       fixed_outcome (2 <=? len gs) "Need at least two groups" kw gs;
     mannwhitneyu := fun _ _ _ => Ok mw;
     pairwise_tukeyhsd := fun _ _ _ => Ok tukey;
     fitted_model := dataframe;
     ols_fit := fun _ df => Ok df;
     anova_lm := fun _ _ => Ok tbl |}.

Definition two_way_table (p_rider p_stage p_interaction : float)
  : AnovaTable :=
  [ ("C(rider_class)"%string, mkAnovaRow 40 3 12.5 p_rider);
    ("C(stage_class)"%string, mkAnovaRow 12 2 5.6 p_stage);
    ("C(rider_class):C(stage_class)"%string,
       mkAnovaRow 30 6 4.7 p_interaction);
    ("Residual"%string, mkAnovaRow 100 90 nan nan) ]%float.

(** All checks pass and no test is significant. *)
Definition calm_lib : StatsLib :=
  fixed_lib (0.987, 0.967)%float 0.3%float (1.25, 0.314)%float
            (1.53, 0.271)%float (1.2, 0.27)%float (3, 0.4)%float []
            (two_way_table 0.2 0.3 0.4).

Definition rows (cls stage : label) (ps : list float) : dataframe :=
  map (fun p => mkObservation p cls stage) ps.

(** Scenario 1: three identical groups 1,2,3,4,5. *)
Definition identical_lib : StatsLib :=
  fixed_lib (0.987, 0.967)%float 0.3%float (0, 1)%float (0, 1)%float
            (0, 1)%float (12.5, 1)%float [] (two_way_table 0.2 0.3 0.4).

Definition identical_df : dataframe :=
  rows "A" "flat" [1; 2; 3; 4; 5]%float
  ++ rows "B" "flat" [1; 2; 3; 4; 5]%float
  ++ rows "C" "flat" [1; 2; 3; 4; 5]%float.

Definition shapiro_normal : NormalityResult :=
  mkNormality "Shapiro-Wilk" 0.987%float None (Some 0.967%float) true
              alpha_default.

(** A group of two values beside a group of five. *)
Definition mixed_df : dataframe :=
  rows "A" "flat" [1; 2]%float ++ rows "B" "flat" [1; 2; 3; 4; 5]%float.

(** Two groups of two values each: no normality verdict is available, and
    Levene's routine reports p = 1. *)
Definition two_pairs_df : dataframe :=
  rows "A" "flat" [0.1; 0.2]%float ++ rows "B" "flat" [0.1; 0.2]%float.

(** A group of 5001 values and a group of five values. *)
Definition large_group_df : dataframe :=
  rows "A" "flat" (repeat 1%float (Z.to_nat 5001))
  ++ rows "B" "flat" [1; 2; 3; 4; 5]%float.

(** Levene's routine on two zero-variance groups: the quotient 0/0. *)
Definition degenerate_lib : StatsLib :=
  fixed_lib (1, 1)%float 0.3%float (nan, nan)%float (infinity, 0)%float
            (9, 0.0027)%float (0, 0.0056)%float [] (two_way_table 0.2 0.3 0.4).

(** Scenario 3: four skewed groups; every Shapiro-Wilk verdict fails and
    the Kruskal-Wallis test is significant. *)
Definition skewed_lib : StatsLib :=
  fixed_lib (0.71, 0.003)%float 0.3%float (0.9, 0.46)%float
            (14.2, 0.0001)%float (13.6, 0.0035)%float (0, 0.0079)%float []
            (two_way_table 0.2 0.3 0.4).

Definition four_classes : list label :=
  ["A"; "B"; "C"; "D"]%string.

Definition four_groups : list sample :=
  [ [1; 1; 2; 9]; [11; 11; 12; 30]; [41; 41; 43; 90];
    [101; 101; 104; 300] ]%float.

(** Scenario 4: a crossover interaction; the groups are skewed and differ
    within each stage class. *)
Definition crossover_lib : StatsLib :=
  fixed_lib (0.71, 0.003)%float 0.3%float (0.9, 0.46)%float
            (14.2, 0.0001)%float (9.8, 0.0074)%float (0, 0.03)%float []
            (two_way_table 0.2 0.3 0.001).

Definition crossover_df : dataframe :=
  rows "A" "flat" [1; 1; 2; 9]%float
  ++ rows "B" "flat" [11; 11; 12; 30]%float
  ++ rows "C" "flat" [41; 41; 43; 90]%float
  ++ rows "A" "mountain" [41; 41; 43; 90]%float
  ++ rows "B" "mountain" [11; 11; 12; 30]%float
  ++ rows "C" "mountain" [1; 1; 2; 9]%float.

(** The white space of ASCII: the space, the controls 9 to 13 and 28 to
    31. *)
Definition ascii_isspace (c : ascii) : bool :=
  let n := nat_of_ascii c in
  Nat.eqb n 32 || (Nat.leb 9 n && Nat.leb n 13)
  || (Nat.leb 28 n && Nat.leb n 31).

Definition chars (s : string) : list ascii := list_ascii_of_string s.

(** A library whose Shapiro-Wilk outcome depends on the sample: samples
    that start below 40 are not normal, the others are. *)
Definition two_paths_lib : StatsLib :=
  {| shapiro := fun x =>
       fixed_outcome (3 <=? len x) "Data must be at least length 3."
         (if (hd 0 x <? 40)%float then (0.71, 0.003)%float
          else (0.98, 0.9)%float) x;
     anderson := anderson crossover_lib;
     levene := levene crossover_lib;
     f_oneway := f_oneway crossover_lib;
     kruskal := kruskal crossover_lib;
     mannwhitneyu := mannwhitneyu crossover_lib;
     pairwise_tukeyhsd := pairwise_tukeyhsd crossover_lib;
     fitted_model := fitted_model crossover_lib;
     ols_fit := ols_fit crossover_lib;
     anova_lm := anova_lm crossover_lib |}.

(** Skewed groups on the flat stages; on the mountain stages two normal
    groups and a group of two values. *)
Definition two_paths_df : dataframe :=
  rows "A" "flat" [1; 1; 2; 9]%float
  ++ rows "B" "flat" [11; 11; 12; 30]%float
  ++ rows "C" "flat" [13; 13; 14; 35]%float
  ++ rows "A" "mountain" [41; 42; 43; 44]%float
  ++ rows "B" "mountain" [51; 52; 53; 54]%float
  ++ rows "C" "mountain" [61; 62]%float.

(** The rows of the flat stage class in Scenario 4. *)
Definition flat_stratum : dataframe :=
  where_stage_class "flat" crossover_df.

(** * Properties *)

(** ** Floats *)

Lemma ltb_nan_r (a : float) : (a <? nan)%float = false.
Proof.
  rewrite FloatAxioms.ltb_spec. cbn. destruct (Prim2SF a); reflexivity.
Qed.

(** ** The error monad *)

Lemma bind_Ok_inv {A B : Type} (m : res A) (k : A -> res B) (b : B) :
  bind m k = Ok b -> exists a, m = Ok a /\ k a = Ok b.
Proof.
  destruct m as [a | e]; simpl; intros H; [eauto | discriminate].
Qed.

Lemma bind_Raise {A B : Type} (m : res A) (k : A -> res B) (e : exn) :
  m = Raise e -> bind m k = Raise e.
Proof. intros ->. reflexivity. Qed.

Lemma bind_Ok {A B : Type} (m : res A) (k : A -> res B) (a : A) :
  m = Ok a -> bind m k = k a.
Proof. intros ->. reflexivity. Qed.

Ltac inv_bind H :=
  repeat match type of H with
  | bind _ _ = Ok _ =>
      let a := fresh "a" in
      let Ha := fresh "Ha" in
      apply bind_Ok_inv in H; destruct H as (a & Ha & H)
  end.

Lemma last_item_nonempty {A : Type} (l : list A) :
  l <> [] -> exists a, last_item l = Ok a.
Proof.
  induction l as [| x l IH]; intros Hne; [congruence |].
  destruct l as [| y l]; [exists x; reflexivity |].
  destruct IH as [a Ha]; [discriminate |]. exists a. exact Ha.
Qed.

Lemma last_item_nth {A : Type} (l : list A) (a : A) :
  last_item l = Ok a -> nth_error l (List.length l - 1) = Some a.
Proof.
  induction l as [| x l IH]; [discriminate |].
  destruct l as [| y l]; [intros [= ->]; reflexivity |].
  intros H. specialize (IH H). cbn [List.length] in *.
  replace (S (S (List.length l)) - 1)%nat
    with (S (S (List.length l) - 1))%nat by lia.
  exact IH.
Qed.

(** ** [test_normality] *)

Section NormalityFacts.

Context (lib : StatsLib).

Lemma test_normality_large (data : sample) (alpha : float) :
  5000 < len data ->
  test_normality lib data alpha =
    (result <- anderson lib data ;;
     critical <- last_item (ad_critical_values result) ;;
     Ok (Some (mkNormality "Anderson-Darling" (ad_statistic result)
                 (Some critical) None
                 (ad_statistic result <? critical)%float alpha))).
Proof.
  intros H. unfold test_normality.
  apply Z.ltb_lt in H. rewrite H. reflexivity.
Qed.

Lemma test_normality_small (data : sample) (alpha : float) :
  len data <= 5000 ->
  test_normality lib data alpha =
    (if len (filter PrimFloat.is_finite data) <? 3 then Ok None
     else
       sp <- shapiro lib (filter PrimFloat.is_finite data) ;;
       Ok (Some (mkNormality "Shapiro-Wilk" (fst sp) None (Some (snd sp))
                   (alpha <? snd sp)%float alpha))).
Proof.
  intros H. unfold test_normality.
  apply Z.ltb_ge in H. rewrite H.
  destruct (len (filter PrimFloat.is_finite data) <? 3); [reflexivity |].
  destruct (shapiro lib (filter PrimFloat.is_finite data)) as [[s p] | e];
    reflexivity.
Qed.

End NormalityFacts.

(** C6: a sample of more than 5000 values takes the Anderson-Darling path:
    the verdict has no p-value, carries the statistic and the critical value
    of the strictest significance level (the last one listed), and is normal
    iff the statistic is strictly below that critical value; a sample of at
    most 5000 values takes the Shapiro-Wilk path, whose outcome never
    involves the Anderson-Darling routine. *)
Theorem test_normality_large_sample_path
  (lib : StatsLib) (data : sample) (alpha : float) :
  (5000 < len data ->
   forall r, anderson lib data = Ok r -> strictest_level_last r ->
   exists critical level,
     nth_error (ad_critical_values r)
               (List.length (ad_critical_values r) - 1) = Some critical
     /\ nth_error (ad_significance_level r)
                  (List.length (ad_critical_values r) - 1) = Some level
     /\ Forall (fun l' => (level <=? l')%float = true)
               (ad_significance_level r)
     /\ test_normality lib data alpha =
          Ok (Some {| n_test := "Anderson-Darling";
                      n_statistic := ad_statistic r;
                      n_critical_value := Some critical;
                      n_p_value := None;
                      n_is_normal := (ad_statistic r <? critical)%float;
                      n_alpha := alpha |}))
  /\ (len data <= 5000 ->
      (forall v, test_normality lib data alpha = Ok (Some v) ->
         n_test v = "Shapiro-Wilk"%string
         /\ n_critical_value v = None
         /\ exists p, n_p_value v = Some p
              /\ shapiro lib (filter PrimFloat.is_finite data)
                 = Ok (n_statistic v, p)
              /\ n_is_normal v = (alpha <? p)%float)
      /\ (3 <= len (filter PrimFloat.is_finite data) ->
          forall s p, shapiro lib (filter PrimFloat.is_finite data) = Ok (s, p) ->
          test_normality lib data alpha =
            Ok (Some {| n_test := "Shapiro-Wilk";
                        n_statistic := s;
                        n_critical_value := None;
                        n_p_value := Some p;
                        n_is_normal := (alpha <? p)%float;
                        n_alpha := alpha |}))).
Proof.
  split.
  - intros Hlen r Hr (Hsame & l & Hl & Hmin).
    assert (Hne : ad_critical_values r <> []).
    { intros E. rewrite E in Hsame.
      destruct (ad_significance_level r); [discriminate Hl | discriminate]. }
    destruct (last_item_nonempty _ Hne) as [critical Hc].
    exists critical, l. repeat split.
    + apply last_item_nth. exact Hc.
    + rewrite Hsame. apply last_item_nth. exact Hl.
    + exact Hmin.
    + rewrite test_normality_large by exact Hlen.
      rewrite Hr. simpl. rewrite Hc. reflexivity.
  - intros Hlen. split.
    + intros v Hv. rewrite test_normality_small in Hv by exact Hlen.
      destruct (len (filter PrimFloat.is_finite data) <? 3); [discriminate |].
      destruct (shapiro lib (filter PrimFloat.is_finite data)) as [[s p] | e];
        [| discriminate].
      simpl in Hv. injection Hv as <-. simpl.
      repeat split. exists p. repeat split.
    + intros H3 s p Hs. rewrite test_normality_small by exact Hlen.
      apply Z.ltb_ge in H3. rewrite H3, Hs. reflexivity.
Qed.

(** A sample of 5001 values and one of 5000 values under [calm_lib]. *)
Lemma test_normality_large_sample_path_witness :
  (exists critical level,
     nth_error norm_critical_values 4 = Some critical
     /\ nth_error norm_significance_level 4 = Some level
     /\ Forall (fun l' => (level <=? l')%float = true) norm_significance_level
     /\ test_normality calm_lib (repeat 1%float (Z.to_nat 5001)) alpha_default
        = Ok (Some (mkNormality "Anderson-Darling" 0.3%float (Some critical)
                      None (0.3 <? critical)%float alpha_default)))
  /\ test_normality calm_lib (repeat 1%float (Z.to_nat 5000)) alpha_default
     = Ok (Some (mkNormality "Shapiro-Wilk" 0.987%float None (Some 0.967%float)
                   (alpha_default <? 0.967)%float alpha_default)).
Proof.
  split.
  - apply (proj1 (test_normality_large_sample_path calm_lib
                    (repeat 1%float (Z.to_nat 5001)) alpha_default)
                 ltac:(vm_compute; reflexivity)
                 (mkAnderson 0.3%float norm_critical_values
                             norm_significance_level)
                 eq_refl).
    split; [reflexivity |].
    exists 1%float. split; [reflexivity |].
    repeat constructor.
  - apply (proj2 (proj2 (test_normality_large_sample_path calm_lib
                    (repeat 1%float (Z.to_nat 5000)) alpha_default)
                 ltac:(vm_compute; discriminate))).
    + vm_compute. discriminate.
    + vm_compute. reflexivity.
Defined.

(** C10: on a sample of more than 5000 values [test_normality] never
    returns [None]: the sample goes to the Anderson-Darling routine as it
    is, non-finite values included, and whenever that routine returns, a
    verdict is returned, whatever the number of finite values. *)
Theorem test_normality_large_sample_unfiltered
  (lib : StatsLib) (data : sample) (alpha : float) :
  5000 < len data ->
  test_normality lib data alpha <> Ok None
  /\ (forall r, anderson lib data = Ok r -> ad_critical_values r <> [] ->
      exists v, test_normality lib data alpha = Ok (Some v)
                /\ n_test v = "Anderson-Darling"%string
                /\ n_statistic v = ad_statistic r
                /\ n_p_value v = None)
  /\ (forall e, anderson lib data = Raise e ->
      test_normality lib data alpha = Raise e).
Proof.
  intros Hlen. rewrite test_normality_large by exact Hlen.
  repeat split.
  - destruct (anderson lib data) as [r | e]; simpl; [| discriminate].
    destruct (last_item (ad_critical_values r)); simpl; discriminate.
  - intros r Hr Hne. rewrite Hr. simpl.
    destruct (last_item_nonempty _ Hne) as [c Hc]. rewrite Hc. simpl.
    eexists. split; [reflexivity |]. repeat split.
  - intros e He. rewrite He. reflexivity.
Qed.

(** 5001 values, none of them finite: the verdict is still produced. *)
Lemma test_normality_large_sample_unfiltered_witness :
  filter PrimFloat.is_finite (repeat nan (Z.to_nat 5001)) = []
  /\ test_normality calm_lib (repeat nan (Z.to_nat 5001)) alpha_default
     <> Ok None
  /\ exists v, test_normality calm_lib (repeat nan (Z.to_nat 5001))
                 alpha_default = Ok (Some v)
               /\ n_test v = "Anderson-Darling"%string
               /\ n_statistic v = 0.3%float
               /\ n_p_value v = None.
Proof.
  split; [vm_compute; reflexivity |].
  pose proof (test_normality_large_sample_unfiltered calm_lib
                (repeat nan (Z.to_nat 5001)) alpha_default
                ltac:(vm_compute; reflexivity)) as (Hnone & Hsome & _).
  split; [exact Hnone |].
  apply (Hsome (mkAnderson 0.3%float norm_critical_values
                           norm_significance_level) eq_refl).
  discriminate.
Defined.

(** ** [test_variance_homogeneity] *)

Lemma test_variance_homogeneity_Ok (lib : StatsLib) (groups : list sample)
  (alpha s p : float) :
  levene lib groups = Ok (s, p) ->
  test_variance_homogeneity lib groups alpha =
    Ok (mkVariance "Levene's" s p (alpha <? p)%float alpha).
Proof. intros H. unfold test_variance_homogeneity. rewrite H. reflexivity. Qed.

Lemma test_variance_homogeneity_inv (lib : StatsLib) (groups : list sample)
  (alpha : float) (v : VarianceResult) :
  test_variance_homogeneity lib groups alpha = Ok v ->
  levene lib groups = Ok (v_statistic v, v_p_value v)
  /\ v_equal_variances v = (alpha <? v_p_value v)%float
  /\ v_alpha v = alpha.
Proof.
  unfold test_variance_homogeneity.
  destruct (levene lib groups) as [[s p] | e]; simpl; [| discriminate].
  intros [= <-]. simpl. repeat split.
Qed.

(** C8 (as the code has it): the checks validate nothing and handle no
    exception.  An empty sample gives no verdict and no error; a NaN
    outcome of Levene's routine becomes a verdict with NaN statistics, and
    its NaN p-value fails the assumption; an exception of a routine reaches
    the caller unchanged. *)
Theorem checks_validate_nothing (lib : StatsLib) (alpha : float) :
  test_normality lib [] alpha = Ok None
  /\ (forall groups,
        levene lib groups = Ok (nan, nan) ->
        test_variance_homogeneity lib groups alpha =
          Ok (mkVariance "Levene's" nan nan false alpha))
  /\ (forall groups e,
        levene lib groups = Raise e ->
        test_variance_homogeneity lib groups alpha = Raise e)
  /\ (forall data e,
        len data <= 5000 ->
        3 <= len (filter PrimFloat.is_finite data) ->
        shapiro lib (filter PrimFloat.is_finite data) = Raise e ->
        test_normality lib data alpha = Raise e)
  /\ (forall data e,
        5000 < len data ->
        anderson lib data = Raise e ->
        test_normality lib data alpha = Raise e).
Proof.
  repeat split.
  - intros groups H.
    rewrite (test_variance_homogeneity_Ok _ _ _ _ _ H), ltb_nan_r.
    reflexivity.
  - intros groups e H. unfold test_variance_homogeneity. rewrite H.
    reflexivity.
  - intros data e Hlen H3 H. rewrite test_normality_small by exact Hlen.
    apply Z.ltb_ge in H3. rewrite H3, H. reflexivity.
  - intros data e Hlen H. rewrite test_normality_large by exact Hlen.
    rewrite H. reflexivity.
Qed.

(** C8 fails as stated: the empty sample raises nothing, and the two
    zero-variance groups A = 1,1,1,1,1 and B = 100,100,100,100,100 get a
    verdict whose statistic and p-value are NaN. *)
Lemma checks_validate_nothing_counterexample :
  test_normality calm_lib [] alpha_default = Ok None
  /\ ~ (exists e, test_normality calm_lib [] alpha_default = Raise e)
  /\ test_variance_homogeneity degenerate_lib
       [[1; 1; 1; 1; 1]; [100; 100; 100; 100; 100]]%float alpha_default
     = Ok (mkVariance "Levene's" nan nan false alpha_default).
Proof.
  split; [reflexivity |]. split; [| reflexivity].
  intros [e He]. discriminate He.
Qed.

(** ** Lists: [mapM], the pairs [i < j], [unique] *)

Lemma mapM_ext_in {A B : Type} (f g : A -> res B) (l : list A) :
  (forall a, In a l -> f a = g a) -> mapM f l = mapM g l.
Proof.
  induction l as [| a l IH]; intros H; [reflexivity |].
  simpl. rewrite (H a (or_introl eq_refl)), IH; [reflexivity |].
  intros b Hb. apply H. right. exact Hb.
Qed.

Lemma mapM_map {A B C : Type} (f : B -> res C) (g : A -> B) (l : list A) :
  mapM (fun a => f (g a)) l = mapM f (map g l).
Proof.
  induction l as [| a l IH]; [reflexivity |]. simpl. rewrite IH. reflexivity.
Qed.

Lemma mapM_Ok_Forall2 {A B : Type} (f : A -> res B) (l : list A)
  (bs : list B) :
  mapM f l = Ok bs <-> Forall2 (fun a b => f a = Ok b) l bs.
Proof.
  revert bs. induction l as [| a l IH]; intros bs; simpl.
  - split; [intros [= <-]; constructor | intros H; inversion H; reflexivity].
  - split.
    + intros H. inv_bind H. injection H as <-.
      constructor; [assumption |]. apply IH. assumption.
    + intros H. inversion H as [| a' b l' bs' Hb Hrest]; subst.
      rewrite Hb. simpl. apply IH in Hrest. rewrite Hrest. reflexivity.
Qed.

Lemma mapM_returns {A B : Type} (f : A -> res B) (l : list A) :
  (forall a, In a l -> returns (f a)) -> returns (mapM f l).
Proof.
  induction l as [| a l IH]; intros H; [exists []; reflexivity |].
  destruct (H a (or_introl eq_refl)) as [b Hb].
  destruct IH as [bs Hbs]; [intros x Hx; apply H; right; exact Hx |].
  exists (b :: bs). simpl. rewrite Hb. simpl. rewrite Hbs. reflexivity.
Qed.

Lemma unordered_pairs_length {A : Type} (l : list A) :
  len (unordered_pairs l) = len l * (len l - 1) / 2.
Proof.
  unfold len.
  assert (H : 2 * Z.of_nat (List.length (unordered_pairs l))
              = Z.of_nat (List.length l) * (Z.of_nat (List.length l) - 1)).
  { induction l as [| x l IH]; [reflexivity |].
    cbn [unordered_pairs List.length].
    rewrite length_app, length_map. lia. }
  rewrite <- H, Z.mul_comm, Z.div_mul by lia. reflexivity.
Qed.

Lemma unordered_pairs_In {A : Type} (l : list A) (a b : A) :
  In (a, b) (unordered_pairs l) -> In a l /\ In b l.
Proof.
  induction l as [| x l IH]; [intros [] |].
  cbn [unordered_pairs]. rewrite in_app_iff, in_map_iff.
  intros [(y & [= <- <-] & Hy) | H].
  - split; [left; reflexivity | right; exact Hy].
  - destruct (IH H). split; right; assumption.
Qed.

Lemma index_pairs_from_0 (k : nat) : index_pairs k = index_pairs_from 0 k.
Proof. reflexivity. Qed.

Lemma index_pairs_from_S (o k : nat) :
  index_pairs_from o (S k) =
    map (pair o) (seq (S o) k) ++ index_pairs_from (S o) k.
Proof.
  unfold index_pairs_from. cbn [seq flat_map].
  replace (o + S k - S o)%nat with k by lia.
  f_equal. apply flat_map_ext. intros i.
  replace (o + S k)%nat with (S o + k)%nat by lia. reflexivity.
Qed.

Lemma index_pairs_from_bounds (o k i j : nat) :
  In (i, j) (index_pairs_from o k) -> (o <= i < j)%nat /\ (j < o + k)%nat.
Proof.
  unfold index_pairs_from. rewrite in_flat_map.
  intros (i' & Hi & Hj). apply in_map_iff in Hj as (j' & [= <- <-] & Hj).
  apply in_seq in Hi. apply in_seq in Hj. lia.
Qed.

Lemma map_nth_seq {A : Type} (d : A) (pre suf : list A) :
  map (fun i => nth i (pre ++ suf) d) (seq (List.length pre) (List.length suf))
  = suf.
Proof.
  revert pre. induction suf as [| x suf IH]; intros pre; [reflexivity |].
  cbn [List.length seq map]. f_equal.
  - rewrite app_nth2, Nat.sub_diag by lia. reflexivity.
  - specialize (IH (pre ++ [x])).
    rewrite <- app_assoc, length_app in IH. cbn in IH.
    rewrite Nat.add_1_r in IH. exact IH.
Qed.

Lemma index_pairs_unordered {A : Type} (d : A) (pre suf : list A) :
  map (fun ij => (nth (fst ij) (pre ++ suf) d, nth (snd ij) (pre ++ suf) d))
      (index_pairs_from (List.length pre) (List.length suf))
  = unordered_pairs suf.
Proof.
  revert pre. induction suf as [| x suf IH]; intros pre; [reflexivity |].
  cbn [List.length]. rewrite index_pairs_from_S, map_app.
  cbn [unordered_pairs]. f_equal.
  - rewrite map_map. cbn [fst snd].
    rewrite app_nth2, Nat.sub_diag by lia. cbn [nth].
    pose proof (map_nth_seq d (pre ++ [x]) suf) as H.
    rewrite <- app_assoc, length_app in H. cbn in H.
    rewrite Nat.add_1_r in H.
    rewrite <- H at 2. rewrite map_map. reflexivity.
  - specialize (IH (pre ++ [x])).
    rewrite <- app_assoc, length_app in IH. cbn in IH.
    rewrite Nat.add_1_r in IH. exact IH.
Qed.

Lemma getitem_nth {A : Type} (d : A) (l : list A) (i : nat) :
  (i < List.length l)%nat -> getitem l i = Ok (nth i l d).
Proof.
  intros H. unfold getitem.
  rewrite (nth_error_nth' l d H). reflexivity.
Qed.

Lemma existsb_eqb_In (x : label) (seen : list label) :
  existsb (String.eqb x) seen = true <-> In x seen.
Proof.
  rewrite existsb_exists. split.
  - intros (y & Hy & E). apply String.eqb_eq in E. subst. exact Hy.
  - intros H. exists x. split; [exact H | apply String.eqb_refl].
Qed.

Lemma unique_from_seen (s1 s2 : list label) (xs : list label) :
  (forall y, In y s1 <-> In y s2) -> unique_from s1 xs = unique_from s2 xs.
Proof.
  revert s1 s2. induction xs as [| x xs IH]; intros s1 s2 H; [reflexivity |].
  simpl.
  assert (E : existsb (String.eqb x) s1 = existsb (String.eqb x) s2).
  { apply eq_true_iff_eq. rewrite !existsb_eqb_In. apply H. }
  rewrite E. destruct (existsb (String.eqb x) s2).
  - apply IH. exact H.
  - f_equal. apply IH. intros y. simpl. rewrite H. reflexivity.
Qed.

Lemma unique_from_filter (s seen : list label) (xs : list label) :
  unique_from (s ++ seen) xs =
    unique_from seen (filter (fun y => negb (existsb (String.eqb y) s)) xs).
Proof.
  revert s seen. induction xs as [| x xs IH]; intros s seen; [reflexivity |].
  cbn [unique_from filter]. rewrite existsb_app.
  destruct (existsb (String.eqb x) s) eqn:Es; rewrite ?Es; cbn [orb negb].
  - apply IH.
  - cbn [unique_from].
    destruct (existsb (String.eqb x) seen) eqn:Eseen; rewrite ?Eseen;
      [apply IH |].
    f_equal. rewrite <- IH. apply unique_from_seen.
    intros y. simpl. rewrite !in_app_iff. simpl. tauto.
Qed.

(** [Series.unique()] lists the labels in order of first appearance: the
    first label, then the distinct labels of the rest that differ from it. *)
Lemma unique_cons (x : label) (xs : list label) :
  unique (x :: xs) =
    x :: unique (filter (fun y => negb (String.eqb y x)) xs).
Proof.
  unfold unique. cbn [unique_from existsb]. f_equal.
  rewrite (unique_from_filter [x] []). f_equal.
  apply filter_ext. intros y. simpl. rewrite orb_false_r. reflexivity.
Qed.

Lemma unique_from_In (seen xs : list label) (y : label) :
  In y (unique_from seen xs) <-> In y xs /\ ~ In y seen.
Proof.
  revert seen. induction xs as [| x xs IH]; intros seen; simpl; [tauto |].
  destruct (existsb (String.eqb x) seen) eqn:E.
  - apply existsb_eqb_In in E. rewrite IH. split.
    + tauto.
    + intros [[-> | H] Hn]; [contradiction | tauto].
  - assert (Hx : ~ In x seen).
    { intros H. apply existsb_eqb_In in H. congruence. }
    simpl. rewrite IH. simpl. split.
    + intros [-> | [H Hn]]; [tauto |]. split; [tauto |]. tauto.
    + intros [[-> | H] Hn]; [tauto |].
      destruct (String.eqb_spec x y) as [-> | Hne]; [tauto |]. right. tauto.
Qed.

Lemma unique_from_NoDup (seen xs : list label) : NoDup (unique_from seen xs).
Proof.
  revert seen. induction xs as [| x xs IH]; intros seen; simpl;
    [constructor |].
  destruct (existsb (String.eqb x) seen); [apply IH |].
  constructor; [| apply IH].
  rewrite unique_from_In. simpl. tauto.
Qed.

Lemma unique_In (xs : list label) (y : label) : In y (unique xs) <-> In y xs.
Proof. unfold unique. rewrite unique_from_In. simpl. tauto. Qed.

Lemma unique_NoDup (xs : list label) : NoDup (unique xs).
Proof. apply unique_from_NoDup. Qed.

(** ** The Mann-Whitney U post-hoc block *)

Section PostHocFacts.

Context (lib : StatsLib).

Lemma mann_whitney_pair_nth (rider_classes : list label)
  (groups : list sample) (alpha : float) (i j : nat) :
  List.length groups = List.length rider_classes ->
  (i < List.length rider_classes)%nat ->
  (j < List.length rider_classes)%nat ->
  mann_whitney_pair lib rider_classes groups alpha (i, j) =
    pair_test lib alpha
      (nth i (combine rider_classes groups) (EmptyString, []),
       nth j (combine rider_classes groups) (EmptyString, [])).
Proof.
  intros Hlen Hi Hj. unfold mann_whitney_pair, pair_test.
  rewrite !combine_nth by (symmetry; exact Hlen). cbn [fst snd].
  rewrite (getitem_nth [] groups i), (getitem_nth [] groups j) by lia.
  cbn [bind].
  destruct (mannwhitneyu lib (nth i groups []) (nth j groups []) "two-sided")
    as [[u p] | e]; simpl; [| reflexivity].
  rewrite (getitem_nth EmptyString rider_classes i),
          (getitem_nth EmptyString rider_classes j) by lia.
  reflexivity.
Qed.

Lemma mann_whitney_pairs (rider_classes : list label) (groups : list sample)
  (alpha : float) :
  List.length groups = List.length rider_classes ->
  mapM (mann_whitney_pair lib rider_classes groups alpha)
       (index_pairs (List.length rider_classes))
  = mapM (pair_test lib alpha) (unordered_pairs (combine rider_classes groups)).
Proof.
  intros Hlen.
  pose proof (index_pairs_unordered (EmptyString, []) []
                (combine rider_classes groups)) as H.
  cbn [app List.length] in H.
  rewrite length_combine, Hlen, Nat.min_id in H.
  rewrite <- H, <- mapM_map, index_pairs_from_0.
  apply mapM_ext_in. intros [i j] Hin.
  apply index_pairs_from_bounds in Hin. cbn [fst snd].
  apply mann_whitney_pair_nth; [exact Hlen | lia | lia].
Qed.

Lemma mann_whitney_posthoc_spec (rider_classes : list label)
  (groups : list sample) :
  List.length groups = List.length rider_classes ->
  2 <= len rider_classes ->
  let n := len rider_classes * (len rider_classes - 1) / 2 in
  let alpha := (0.05 / float_of_int n)%float in
  mann_whitney_posthoc lib rider_classes groups =
    (posthoc_results <-
       mapM (pair_test lib alpha) (unordered_pairs (combine rider_classes groups)) ;;
     Ok (MannWhitneyU n alpha posthoc_results)).
Proof.
  intros Hlen Hk n alpha. unfold mann_whitney_posthoc, truediv.
  fold n.
  assert (Hn : 1 <= n).
  { unfold n. apply Z.div_le_lower_bound; nia. }
  destruct (Z.eqb_spec n 0) as [E | _]; [lia |].
  cbn [bind]. fold alpha.
  rewrite mann_whitney_pairs by exact Hlen. reflexivity.
Qed.

Lemma mann_whitney_posthoc_returns (rider_classes : list label)
  (groups : list sample) :
  List.length groups = List.length rider_classes ->
  2 <= len rider_classes ->
  (forall x y, In x groups -> In y groups ->
               returns (mannwhitneyu lib x y "two-sided")) ->
  returns (mann_whitney_posthoc lib rider_classes groups).
Proof.
  intros Hlen Hk Hmw.
  rewrite mann_whitney_posthoc_spec by assumption.
  destruct (mapM_returns (pair_test lib
              (0.05 / float_of_int
                 (len rider_classes * (len rider_classes - 1) / 2))%float)
              (unordered_pairs (combine rider_classes groups))) as [rows Hrows].
  - intros [[c1 g1] [c2 g2]] Hin. unfold pair_test. cbn [fst snd].
    apply unordered_pairs_In in Hin as [H1 H2].
    apply in_combine_r in H1. apply in_combine_r in H2.
    destruct (Hmw g1 g2 H1 H2) as [up Hup].
    rewrite Hup. eexists. reflexivity.
  - rewrite Hrows. eexists. reflexivity.
Qed.

(** Fewer than two labels: there is no pair to divide by. *)
Lemma mann_whitney_posthoc_no_pair (rider_classes : list label)
  (groups : list sample) :
  len rider_classes < 2 ->
  mann_whitney_posthoc lib rider_classes groups = Raise ZeroDivisionError.
Proof.
  intros Hk. unfold mann_whitney_posthoc, truediv, len in *.
  destruct rider_classes as [| c [| c' rest]]; [reflexivity | reflexivity |].
  cbn [List.length] in Hk. lia.
Qed.

End PostHocFacts.

Lemma rider_groups_length (df : dataframe) (rider_classes : list label) :
  List.length (rider_groups df rider_classes) = List.length rider_classes.
Proof. apply length_map. Qed.

(** ** The normality loops *)

Section OneWayFacts.

Context (lib : StatsLib).

Lemma normality_by_class_spec (zipped : list (label * sample))
  (rs : list (option NormalityResult)) :
  verdicts lib zipped rs ->
  normality_by_class lib zipped = Ok (available (combine (map fst zipped) rs)).
Proof.
  induction 1 as [| [cls group] r zipped rs Hr _ IH]; [reflexivity |].
  cbn [normality_by_class map combine available fst snd] in *.
  rewrite Hr. cbn [bind]. rewrite IH. cbn [bind].
  destruct r; reflexivity.
Qed.

Lemma normality_by_class_verdicts (zipped : list (label * sample))
  (nr : list (label * NormalityResult)) :
  normality_by_class lib zipped = Ok nr ->
  exists rs, verdicts lib zipped rs
             /\ nr = available (combine (map fst zipped) rs).
Proof.
  revert nr. induction zipped as [| [cls group] zipped IH]; intros nr H.
  - injection H as <-. exists []. split; [constructor | reflexivity].
  - cbn [normality_by_class] in H. inv_bind H. injection H as <-.
    destruct (IH _ Ha0) as (rs & Hrs & ->).
    exists (a :: rs). split; [constructor; assumption |].
    destruct a; reflexivity.
Qed.

Lemma stage_all_normal_spec (zipped : list (label * sample))
  (rs : list (option NormalityResult)) :
  verdicts lib zipped rs ->
  stage_all_normal lib zipped =
    Ok (forallb (fun e => n_is_normal (snd e))
                (available (combine (map fst zipped) rs))).
Proof.
  induction 1 as [| [cls group] r zipped rs Hr _ IH]; [reflexivity |].
  cbn [stage_all_normal map combine available fst snd] in *.
  rewrite Hr. cbn [bind].
  destruct r as [v |]; [| exact IH].
  cbn [available forallb snd].
  destruct (n_is_normal v); [exact IH | reflexivity].
Qed.

Lemma available_all_none {A B : Type} (l : list (A * option B)) :
  Forall (fun e => snd e = None) l -> available l = [].
Proof.
  induction 1 as [| [a [b |]] l Hx _ IH]; simpl in *;
    [reflexivity | discriminate | exact IH].
Qed.

Lemma available_In {A B : Type} (l : list (A * option B)) (a : A) (b : B) :
  In (a, b) (available l) <-> In (a, Some b) l.
Proof.
  induction l as [| [a' [b' |]] l IH]; simpl; [tauto | |].
  - rewrite IH. split; (intros [E | H]; [left; congruence | right; exact H]).
  - rewrite IH. split; [tauto | intros [E | H]; [discriminate | exact H]].
Qed.

(** ** [research_question_1]: what a returned result says *)

Lemma research_question_1_inv (df : dataframe) (r : OneWayResult)
  (rep : OneWayReport) :
  research_question_1 lib df = Ok (r, rep) ->
  let rider_classes := unique (map rider_class df) in
  let groups := rider_groups df rider_classes in
  normality_by_class lib (combine rider_classes groups)
    = Ok (rep_normality rep)
  /\ test_variance_homogeneity lib groups alpha_default
     = Ok (rep_variance rep)
  /\ (if rq1_all_normal (rep_normality rep)
         && v_equal_variances (rep_variance rep)
      then exists f p,
             f_oneway lib groups = Ok (f, p)
             /\ r = ANOVA f p (p <? 0.05)%float
             /\ (if (p <? 0.05)%float
                 then exists ph, tukey_posthoc lib rider_classes groups = Ok ph
                                 /\ rep_posthoc rep = Some ph
                 else rep_posthoc rep = None)
      else exists h p,
             kruskal lib groups = Ok (h, p)
             /\ r = KruskalWallis h p (p <? 0.05)%float
             /\ (if (p <? 0.05)%float
                 then exists ph,
                        mann_whitney_posthoc lib rider_classes groups = Ok ph
                        /\ rep_posthoc rep = Some ph
                 else rep_posthoc rep = None)).
Proof.
  intros H rider_classes groups. unfold research_question_1 in H.
  fold rider_classes groups in H.
  apply bind_Ok_inv in H as (nr & Hnr & H).
  apply bind_Ok_inv in H as (vt & Hvt & H).
  destruct (rq1_all_normal nr && v_equal_variances vt) eqn:Epath.
  - apply bind_Ok_inv in H as ([f p] & Hf & H).
    apply bind_Ok_inv in H as (ph & Hph & H).
    injection H as <- <-. cbn [rep_normality rep_variance rep_posthoc].
    rewrite Epath. repeat split; try assumption.
    exists f, p. repeat split; [assumption |].
    destruct (p <? 0.05)%float.
    + apply bind_Ok_inv in Hph as (t & Ht & [= <-]). eauto.
    + injection Hph as <-. reflexivity.
  - apply bind_Ok_inv in H as ([h p] & Hh & H).
    apply bind_Ok_inv in H as (ph & Hph & H).
    injection H as <- <-. cbn [rep_normality rep_variance rep_posthoc].
    rewrite Epath. repeat split; try assumption.
    exists h, p. repeat split; [assumption |].
    destruct (p <? 0.05)%float.
    + apply bind_Ok_inv in Hph as (t & Ht & [= <-]). eauto.
    + injection Hph as <-. reflexivity.
Qed.

Lemma research_question_1_returns (df : dataframe)
  (nr : list (label * NormalityResult)) (vt : VarianceResult) :
  let rider_classes := unique (map rider_class df) in
  let groups := rider_groups df rider_classes in
  2 <= len rider_classes ->
  normality_by_class lib (combine rider_classes groups) = Ok nr ->
  test_variance_homogeneity lib groups alpha_default = Ok vt ->
  one_way_routines_return lib rider_classes groups ->
  exists r posthoc,
    research_question_1 lib df = Ok (r, mkReport nr vt posthoc).
Proof.
  intros rider_classes groups Hk Hnr Hvt (Hf & Hkw & Htk & Hmw).
  unfold research_question_1. fold rider_classes groups.
  rewrite Hnr. cbn [bind]. rewrite Hvt. cbn [bind].
  destruct (rq1_all_normal nr && v_equal_variances vt).
  - destruct Hf as [[f p] Hf]. rewrite Hf. cbn [bind].
    destruct (p <? 0.05)%float.
    + destruct Htk as [t Ht]. rewrite Ht. cbn [bind]. eauto.
    + cbn [bind]. eauto.
  - destruct Hkw as [[h p] Hkw]. rewrite Hkw. cbn [bind].
    destruct (p <? 0.05)%float.
    + destruct (mann_whitney_posthoc_returns lib rider_classes groups)
        as [ph Hph]; [apply rider_groups_length | exact Hk | exact Hmw |].
      rewrite Hph. cbn [bind]. eauto.
    + cbn [bind]. eauto.
Qed.

End OneWayFacts.

Lemma unordered_pairs_map {A B : Type} (f : A -> B) (l : list A) :
  unordered_pairs (map f l) =
    map (fun p => (f (fst p), f (snd p))) (unordered_pairs l).
Proof.
  induction l as [| x l IH]; [reflexivity |].
  cbn [map unordered_pairs]. rewrite map_app, !map_map, IH. reflexivity.
Qed.

Lemma map_fst_combine_eq {A B : Type} (l : list A) (l' : list B) :
  List.length l' = List.length l -> map fst (combine l l') = l.
Proof.
  revert l'. induction l as [| a l IH]; intros [| b l'] H;
    try discriminate; [reflexivity |].
  simpl. f_equal. apply IH. simpl in H. lia.
Qed.

(** C3: over k >= 2 groups the Mann-Whitney U post-hoc block uses the
    Bonferroni alpha 0.05 / (k(k-1)/2), runs exactly k(k-1)/2 two-sided
    comparisons, one per unordered pair of labels in the order of the
    labels (first appearance, see [unique_cons]), and marks a pair
    significant iff its raw p-value is strictly below the corrected alpha;
    this is the block [research_question_1] reports after a significant
    Kruskal-Wallis test. *)
Theorem bonferroni_posthoc (lib : StatsLib) (rider_classes : list label)
  (groups : list sample) :
  List.length groups = List.length rider_classes ->
  2 <= len rider_classes ->
  (forall x y, In x groups -> In y groups ->
               returns (mannwhitneyu lib x y "two-sided")) ->
  let n := len rider_classes * (len rider_classes - 1) / 2 in
  let alpha := (0.05 / float_of_int n)%float in
  exists rows,
    mann_whitney_posthoc lib rider_classes groups
      = Ok (MannWhitneyU n alpha rows)
    /\ len rows = n
    /\ map (fun row => (group1 row, group2 row)) rows
       = unordered_pairs rider_classes
    /\ Forall2 (fun pr row =>
                  mannwhitneyu lib (snd (fst pr)) (snd (snd pr)) "two-sided"
                    = Ok (u_statistic row, pair_p_value row)
                  /\ pair_significant row
                     = (pair_p_value row <? alpha)%float)
               (unordered_pairs (combine rider_classes groups)) rows
    /\ (forall df r rep,
          rider_classes = unique (map rider_class df) ->
          groups = rider_groups df rider_classes ->
          research_question_1 lib df = Ok (r, rep) ->
          ow_test r = "Kruskal-Wallis"%string ->
          ow_significant r = true ->
          rep_posthoc rep = Some (MannWhitneyU n alpha rows)).
Proof.
  intros Hlen Hk Hmw n alpha.
  destruct (mann_whitney_posthoc_returns lib rider_classes groups Hlen Hk Hmw)
    as [ph Hph].
  pose proof Hph as Hspec.
  rewrite mann_whitney_posthoc_spec in Hspec by assumption.
  fold n alpha in Hspec.
  apply bind_Ok_inv in Hspec as (rows & Hrows & [= <-]).
  apply mapM_Ok_Forall2 in Hrows.
  assert (Hshape : Forall2 (fun pr row =>
            (group1 row, group2 row) = (fst (fst pr), fst (snd pr))
            /\ mannwhitneyu lib (snd (fst pr)) (snd (snd pr)) "two-sided"
               = Ok (u_statistic row, pair_p_value row)
            /\ pair_significant row = (pair_p_value row <? alpha)%float)
          (unordered_pairs (combine rider_classes groups)) rows).
  { eapply Forall2_impl; [| exact Hrows].
    intros pr row Hrow. unfold pair_test in Hrow.
    apply bind_Ok_inv in Hrow as ([u p] & Hup & [= <-]).
    cbn. auto. }
  exists rows. split; [exact Hph |]. split; [| split; [| split]].
  - unfold n. rewrite <- (unordered_pairs_length rider_classes). unfold len.
    rewrite <- (Forall2_length Hrows).
    rewrite <- (map_fst_combine_eq rider_classes groups Hlen) at 2.
    rewrite unordered_pairs_map, length_map. reflexivity.
  - rewrite <- (map_fst_combine_eq rider_classes groups Hlen) at 1.
    rewrite unordered_pairs_map.
    clear Hrows Hph. induction Hshape as [| pr row prs rows' H _ IH];
      [reflexivity |].
    cbn [map]. f_equal; [apply H | exact IH].
  - eapply Forall2_impl; [| exact Hshape]. cbn. tauto.
  - intros df r rep -> -> Hrq Htest Hsig.
    apply research_question_1_inv in Hrq as (_ & _ & Hpath).
    destruct (rq1_all_normal (rep_normality rep)
              && v_equal_variances (rep_variance rep)).
    + destruct Hpath as (f & p & _ & -> & _). discriminate Htest.
    + destruct Hpath as (h & p & _ & -> & Hpost).
      cbn [ow_significant] in Hsig. rewrite Hsig in Hpost.
      destruct Hpost as (ph & Hph' & ->).
      rewrite Hph in Hph'. congruence.
Qed.

(** Four groups: six comparisons against 0.05/6. *)
Lemma bonferroni_posthoc_witness :
  exists rows,
    mann_whitney_posthoc skewed_lib four_classes four_groups
      = Ok (MannWhitneyU 6 (0.05 / float_of_int 6)%float rows)
    /\ len rows = 6
    /\ map (fun row => (group1 row, group2 row)) rows
       = [("A", "B"); ("A", "C"); ("A", "D");
          ("B", "C"); ("B", "D"); ("C", "D")]%string
    /\ Forall2 (fun pr row =>
                  mannwhitneyu skewed_lib (snd (fst pr)) (snd (snd pr))
                               "two-sided"
                    = Ok (u_statistic row, pair_p_value row)
                  /\ pair_significant row
                     = (pair_p_value row <? 0.05 / float_of_int 6)%float)
               (unordered_pairs (combine four_classes four_groups)) rows
    /\ (forall df r rep,
          four_classes = unique (map rider_class df) ->
          four_groups = rider_groups df four_classes ->
          research_question_1 skewed_lib df = Ok (r, rep) ->
          ow_test r = "Kruskal-Wallis"%string ->
          ow_significant r = true ->
          rep_posthoc rep
          = Some (MannWhitneyU 6 (0.05 / float_of_int 6)%float rows)).
Proof.
  exact (bonferroni_posthoc skewed_lib four_classes four_groups eq_refl
           ltac:(vm_compute; discriminate)
           (fun x y _ _ => ex_intro _ (0, 0.0079)%float eq_refl)).
Defined.

(** ** Test selection *)

Lemma test_normality_verdict (lib : StatsLib) (data : sample)
  (v : NormalityResult) :
  test_normality lib data alpha_default = Ok (Some v) ->
  n_is_normal v = verdict_passes v.
Proof.
  unfold test_normality, verdict_passes.
  destruct (5000 <? len data).
  - intros H. inv_bind H. injection H as <-. reflexivity.
  - destruct (len (filter PrimFloat.is_finite data) <? 3); [discriminate |].
    intros H. apply bind_Ok_inv in H as ([s p] & _ & [= <-]). reflexivity.
Qed.

Lemma verdicts_pass (lib : StatsLib) (zipped : list (label * sample))
  (nr : list (label * NormalityResult)) :
  normality_by_class lib zipped = Ok nr ->
  Forall (fun e => n_is_normal (snd e) = verdict_passes (snd e)) nr.
Proof.
  intros H. apply normality_by_class_verdicts in H as (rs & Hrs & ->).
  induction Hrs as [| [cls g] r zipped rs Hr _ IH]; [constructor |].
  cbn [map combine available fst]. destruct r as [v |]; [| exact IH].
  constructor; [| exact IH].
  apply (test_normality_verdict lib g). exact Hr.
Qed.

(** C1 (as the code has it): with at least two groups, when the checks and
    the tests return, [research_question_1] runs the one-way ANOVA iff at
    least one normality verdict is available, every available verdict
    passes and Levene's verdict passes, and the Kruskal-Wallis test
    otherwise.  A Shapiro-Wilk or Levene verdict passes iff its p-value is
    strictly greater than 0.05, an Anderson-Darling verdict iff its
    statistic is strictly below its critical value; the result is
    significant iff its p-value is strictly less than 0.05. *)
Theorem rq1_test_selection (lib : StatsLib) (df : dataframe)
  (nr : list (label * NormalityResult)) (vt : VarianceResult) :
  let rider_classes := unique (map rider_class df) in
  let groups := rider_groups df rider_classes in
  2 <= len rider_classes ->
  normality_by_class lib (combine rider_classes groups) = Ok nr ->
  test_variance_homogeneity lib groups alpha_default = Ok vt ->
  one_way_routines_return lib rider_classes groups ->
  exists r posthoc,
    research_question_1 lib df = Ok (r, mkReport nr vt posthoc)
    /\ ow_test r
       = (if negb (Nat.eqb (List.length nr) 0)
             && forallb (fun e => verdict_passes (snd e)) nr
             && (0.05 <? v_p_value vt)%float
          then "ANOVA" else "Kruskal-Wallis")%string
    /\ (ow_test r = "ANOVA"%string ->
        f_oneway lib groups = Ok (ow_statistic r, ow_p_value r))
    /\ (ow_test r = "Kruskal-Wallis"%string ->
        kruskal lib groups = Ok (ow_statistic r, ow_p_value r))
    /\ ow_significant r = (ow_p_value r <? 0.05)%float.
Proof.
  intros rider_classes groups Hk Hnr Hvt Hret.
  destruct (research_question_1_returns lib df nr vt Hk Hnr Hvt Hret)
    as (r & posthoc & Hrq).
  exists r, posthoc. split; [exact Hrq |].
  apply research_question_1_inv in Hrq as (_ & _ & Hpath).
  cbn [rep_normality rep_variance rep_posthoc] in Hpath.
  fold rider_classes groups in Hpath.
  assert (Hsel : rq1_all_normal nr && v_equal_variances vt
                 = negb (Nat.eqb (List.length nr) 0)
                   && forallb (fun e => verdict_passes (snd e)) nr
                   && (0.05 <? v_p_value vt)%float).
  { apply test_variance_homogeneity_inv in Hvt as (_ & -> & _).
    f_equal. pose proof (verdicts_pass lib _ _ Hnr) as Hpass.
    assert (Hall : forallb (fun e => n_is_normal (snd e)) nr
                   = forallb (fun e => verdict_passes (snd e)) nr).
    { clear - Hpass. induction Hpass as [| e l He _ IH]; [reflexivity |].
      cbn [forallb]. rewrite He, IH. reflexivity. }
    destruct nr as [| e nr]; [reflexivity |]. exact Hall. }
  rewrite <- Hsel.
  destruct (rq1_all_normal nr && v_equal_variances vt).
  - destruct Hpath as (f & p & Hf & -> & _). cbn.
    repeat split; [intros _; exact Hf | discriminate].
  - destruct Hpath as (h & p & Hh & -> & _). cbn.
    repeat split; [discriminate | intros _; exact Hh].
Qed.

(** Scenario 1 runs the one-way ANOVA, which is not significant. *)
Lemma rq1_test_selection_witness :
  exists r posthoc,
    research_question_1 identical_lib identical_df
    = Ok (r, mkReport [("A"%string, shapiro_normal);
                       ("B"%string, shapiro_normal);
                       ("C"%string, shapiro_normal)]
                      (mkVariance "Levene's" 0%float 1%float true
                                  alpha_default)
                      posthoc)
    /\ ow_test r = "ANOVA"%string
    /\ ow_significant r = (ow_p_value r <? 0.05)%float.
Proof.
  destruct (rq1_test_selection identical_lib identical_df
              [("A"%string, shapiro_normal); ("B"%string, shapiro_normal);
               ("C"%string, shapiro_normal)]
              (mkVariance "Levene's" 0%float 1%float true alpha_default)
              ltac:(vm_compute; discriminate) eq_refl eq_refl
              (conj (ex_intro _ (0, 1)%float eq_refl)
                 (conj (ex_intro _ (0, 1)%float eq_refl)
                    (conj (ex_intro _ (TukeyHSD []) eq_refl)
                          (fun x y _ _ =>
                             ex_intro _ (12.5, 1)%float eq_refl)))))
    as (r & posthoc & Hrq & Htest & _ & _ & Hsig).
  exists r, posthoc. split; [exact Hrq |]. split; [exact Htest | exact Hsig].
Defined.

(** C1 fails as stated, twice.  On [two_pairs_df] every available normality
    verdict passes (there is none) and Levene's verdict passes, yet the
    Kruskal-Wallis test runs.  On [large_group_df] the Anderson-Darling
    verdict of the large group has no p-value to exceed 0.05, yet it passes
    and the one-way ANOVA runs. *)
Lemma rq1_test_selection_counterexample :
  (exists r rep,
     research_question_1 identical_lib two_pairs_df = Ok (r, rep)
     /\ 2 <= len (unique (map rider_class two_pairs_df))
     /\ rep_normality rep = []
     /\ stated_parametric (rep_normality rep) (rep_variance rep) = true
     /\ ow_test r = "Kruskal-Wallis"%string)
  /\ (exists r rep v,
        research_question_1 calm_lib large_group_df = Ok (r, rep)
        /\ 2 <= len (unique (map rider_class large_group_df))
        /\ In ("A"%string, v) (rep_normality rep)
        /\ n_p_value v = None
        /\ n_is_normal v = true
        /\ stated_parametric (rep_normality rep) (rep_variance rep) = false
        /\ ow_test r = "ANOVA"%string).
Proof.
  split.
  - eexists. eexists. split; [vm_compute; reflexivity |].
    repeat split. vm_compute. discriminate.
  - eexists. eexists. eexists. split; [vm_compute; reflexivity |].
    split; [vm_compute; discriminate |].
    split; [left; reflexivity |]. repeat split.
Qed.

(** ** Groups without a normality verdict *)

Lemma forallb_available (cls : list label)
  (rs : list (option NormalityResult)) :
  List.length cls = List.length rs ->
  forallb (fun e => n_is_normal (snd e)) (available (combine cls rs))
  = known_normal rs.
Proof.
  revert rs. induction cls as [| c cls IH]; intros [| r rs] H;
    try discriminate; [reflexivity |].
  cbn [combine available known_normal forallb].
  destruct r as [v |]; cbn [available forallb snd];
    rewrite IH by (simpl in H; lia); reflexivity.
Qed.

Lemma rq1_all_normal_available (cls : list label)
  (rs : list (option NormalityResult)) :
  List.length cls = List.length rs ->
  rq1_all_normal (available (combine cls rs))
  = some_known rs && known_normal rs.
Proof.
  intros H. unfold rq1_all_normal.
  rewrite (forallb_available cls rs H).
  revert rs H. induction cls as [| c cls IH]; intros [| r rs] H;
    try discriminate; [reflexivity |].
  cbn [combine available some_known existsb].
  destruct r as [v |]; [reflexivity |].
  cbn [orb known_normal forallb andb].
  specialize (IH rs ltac:(simpl in H; lia)).
  destruct (available (combine cls rs)); exact IH.
Qed.

Lemma verdicts_length (lib : StatsLib) (zipped : list (label * sample))
  (rs : list (option NormalityResult)) :
  verdicts lib zipped rs -> List.length (map fst zipped) = List.length rs.
Proof. intros H. rewrite length_map. exact (Forall2_length H). Qed.

Lemma stage_test_spec (lib : StatsLib) (stage_df : dataframe)
  (rs : list (option NormalityResult)) (vt : VarianceResult)
  (f h : float * float) :
  let rider_classes := unique (map rider_class stage_df) in
  let groups := rider_groups stage_df rider_classes in
  verdicts lib (combine rider_classes groups) rs ->
  test_variance_homogeneity lib groups alpha_default = Ok vt ->
  f_oneway lib groups = Ok f ->
  kruskal lib groups = Ok h ->
  stage_test lib stage_df =
    Ok (if known_normal rs && v_equal_variances vt
        then mkStage "ANOVA" (fst f) (snd f) (snd f <? 0.05)%float
        else mkStage "Kruskal-Wallis" (fst h) (snd h) (snd h <? 0.05)%float).
Proof.
  intros rider_classes groups Hrs Hvt Hf Hh.
  unfold stage_test. fold rider_classes groups.
  rewrite (stage_all_normal_spec lib _ rs Hrs).
  rewrite (forallb_available _ rs (verdicts_length lib _ rs Hrs)).
  cbn [bind]. rewrite Hvt. cbn [bind].
  destruct (known_normal rs && v_equal_variances vt).
  - rewrite Hf. destruct f. reflexivity.
  - rewrite Hh. destruct h. reflexivity.
Qed.

(** C2 (as the code has it): a group without a normality verdict is left
    out of the judgement, neither passing nor failing.  When all checks and
    tests return, [research_question_1] runs the one-way ANOVA iff some
    group has a verdict, no verdict that exists fails and Levene's verdict
    passes; the re-analysis of a stratum ([stage_test]) runs it iff no
    verdict that exists fails and Levene's verdict passes, even when no
    group has a verdict.  Otherwise the Kruskal-Wallis test runs. *)
Theorem unknown_normality_is_skipped (lib : StatsLib) (df : dataframe)
  (rs : list (option NormalityResult)) (vt : VarianceResult) :
  let rider_classes := unique (map rider_class df) in
  let groups := rider_groups df rider_classes in
  2 <= len rider_classes ->
  verdicts lib (combine rider_classes groups) rs ->
  test_variance_homogeneity lib groups alpha_default = Ok vt ->
  one_way_routines_return lib rider_classes groups ->
  (exists r rep,
     research_question_1 lib df = Ok (r, rep)
     /\ ow_test r
        = (if some_known rs && known_normal rs && v_equal_variances vt
           then "ANOVA" else "Kruskal-Wallis")%string)
  /\ (exists sr,
        stage_test lib df = Ok sr
        /\ s_test sr
           = (if known_normal rs && v_equal_variances vt
              then "ANOVA" else "Kruskal-Wallis")%string).
Proof.
  intros rider_classes groups Hk Hrs Hvt Hret.
  pose proof (normality_by_class_spec lib _ rs Hrs) as Hnr.
  pose proof (verdicts_length lib _ rs Hrs) as Hlen.
  split.
  - destruct (research_question_1_returns lib df _ vt Hk Hnr Hvt Hret)
      as (r & posthoc & Hrq).
    eexists r, _. split; [exact Hrq |].
    apply research_question_1_inv in Hrq as (_ & _ & Hpath).
    cbn [rep_normality rep_variance rep_posthoc] in Hpath.
    rewrite (rq1_all_normal_available _ rs Hlen) in Hpath.
    destruct (some_known rs && known_normal rs && v_equal_variances vt).
    + destruct Hpath as (f & p & _ & -> & _). reflexivity.
    + destruct Hpath as (h & p & _ & -> & _). reflexivity.
  - destruct Hret as ([f Hf] & [h Hh] & _).
    rewrite (stage_test_spec lib df rs vt f h Hrs Hvt Hf Hh).
    eexists. split; [reflexivity |].
    destruct (known_normal rs && v_equal_variances vt); reflexivity.
Qed.

(** On [mixed_df] group A has no verdict, group B is normal, and both
    selections run the one-way ANOVA. *)
Lemma unknown_normality_is_skipped_witness :
  (exists r rep,
     research_question_1 calm_lib mixed_df = Ok (r, rep)
     /\ ow_test r = "ANOVA"%string)
  /\ (exists sr,
        stage_test calm_lib mixed_df = Ok sr /\ s_test sr = "ANOVA"%string).
Proof.
  exact (unknown_normality_is_skipped calm_lib mixed_df
           [None; Some shapiro_normal]
           (mkVariance "Levene's" 1.25%float 0.314%float true alpha_default)
           ltac:(vm_compute; discriminate)
           ltac:(repeat constructor)
           eq_refl
           (conj (ex_intro _ (1.53, 0.271)%float eq_refl)
              (conj (ex_intro _ (1.2, 0.27)%float eq_refl)
                 (conj (ex_intro _ (TukeyHSD []) eq_refl)
                       (fun x y _ _ => ex_intro _ (3, 0.4)%float eq_refl))))).
Defined.

(** C2 fails as stated: on [mixed_df] group A (two values) produces no
    normality verdict, yet [research_question_1] and the re-analysis of a
    stratum both run the one-way ANOVA; on [two_pairs_df] no group has a
    verdict and the stratum still gets the one-way ANOVA. *)
Lemma unknown_normality_is_skipped_counterexample :
  rider_groups mixed_df (unique (map rider_class mixed_df))
  = [[1; 2]; [1; 2; 3; 4; 5]]%float
  /\ test_normality calm_lib [1; 2]%float alpha_default = Ok None
  /\ (exists rep,
        research_question_1 calm_lib mixed_df
        = Ok (ANOVA 1.53 0.271 false, rep))
  /\ stage_test calm_lib mixed_df
     = Ok (mkStage "ANOVA" 1.53 0.271 false)
  /\ test_normality identical_lib [0.1; 0.2]%float alpha_default = Ok None
  /\ stage_test identical_lib two_pairs_df
     = Ok (mkStage "ANOVA" 0 1 false).
Proof.
  repeat split. eexists. vm_compute. reflexivity.
Qed.

(** Scenario 2 under a routine that reports the quotient 0/0. *)
Lemma checks_validate_nothing_witness :
  test_variance_homogeneity degenerate_lib
    [[1; 1; 1; 1; 1]; [100; 100; 100; 100; 100]]%float alpha_default
  = Ok (mkVariance "Levene's" nan nan false alpha_default).
Proof.
  apply (proj1 (proj2 (checks_validate_nothing degenerate_lib alpha_default))).
  reflexivity.
Defined.

(** ** [research_question_2] *)

Section TwoWayFacts.

Context (lib : StatsLib).

Lemma stage_test_inv (stage_df : dataframe) (sr : StageResult) :
  stage_test lib stage_df = Ok sr ->
  let groups := rider_groups stage_df (unique (map rider_class stage_df)) in
  s_significant sr = (s_p_value sr <? 0.05)%float
  /\ ((s_test sr = "ANOVA"%string
       /\ f_oneway lib groups = Ok (s_statistic sr, s_p_value sr))
      \/ (s_test sr = "Kruskal-Wallis"%string
          /\ kruskal lib groups = Ok (s_statistic sr, s_p_value sr))).
Proof.
  intros H groups. unfold stage_test in H. fold groups in H.
  apply bind_Ok_inv in H as (an & _ & H).
  apply bind_Ok_inv in H as (vt & _ & H).
  destruct (an && v_equal_variances vt).
  - apply bind_Ok_inv in H as ([f p] & Hf & [= <-]). cbn. auto.
  - apply bind_Ok_inv in H as ([h p] & Hh & [= <-]). cbn. auto.
Qed.

Lemma stage_entries (df : dataframe) (levels : list label)
  (rs : list (label * StageResult)) :
  mapM (stage_entry lib df) levels = Ok rs ->
  map fst rs = levels
  /\ Forall (fun e => stage_test lib (where_stage_class (fst e) df)
                      = Ok (snd e)) rs.
Proof.
  intros H. apply mapM_Ok_Forall2 in H.
  induction H as [| s e levels rs He _ [IH1 IH2]];
    [split; [reflexivity | constructor] |].
  unfold stage_entry in He.
  apply bind_Ok_inv in He as (sr & Hsr & [= <-]).
  split; [cbn; f_equal; exact IH1 | constructor; [exact Hsr | exact IH2]].
Qed.

Lemma research_question_2_fit (df : dataframe) (model : fitted_model lib)
  (tbl : AnovaTable) (irow rrow srow : AnovaRow) :
  ols_fit lib two_way_formula df = Ok model ->
  anova_lm lib model 2 = Ok tbl ->
  loc tbl "C(rider_class):C(stage_class)" = Ok irow ->
  loc tbl "C(rider_class)" = Ok rrow ->
  loc tbl "C(stage_class)" = Ok srow ->
  research_question_2 lib df =
    (stage_results <-
       (if (PR_F irow <? 0.05)%float
        then rs <- mapM (stage_entry lib df) (unique (map stage_class df)) ;;
             Ok (Some rs)
        else Ok None) ;;
     Ok (mkTwoWay (PR_F irow) (PR_F rrow) (PR_F srow) tbl, stage_results)).
Proof.
  intros Hols Hanova Hi Hr Hs. unfold research_question_2.
  rewrite Hols. cbn [bind]. rewrite Hanova. cbn [bind].
  rewrite Hi. cbn [bind]. rewrite Hr. cbn [bind]. rewrite Hs. reflexivity.
Qed.

End TwoWayFacts.

(** C5: [research_question_2] always fits the linear model
    points ~ C(rider_class) + C(stage_class) + C(rider_class):C(stage_class)
    and takes its Type II table ([typ=2]).  What it returns is the table
    with the three p-values of the interaction row, the rider_class row and
    the stage_class row, whatever the assumption checks and the one-way
    tests of the library report; a failure of the fit is not replaced by
    another test. *)
Theorem two_way_always_parametric (lib : StatsLib) (df : dataframe) :
  (forall e, ols_fit lib two_way_formula df = Raise e ->
             research_question_2 lib df = Raise e)
  /\ (forall model e,
        ols_fit lib two_way_formula df = Ok model ->
        anova_lm lib model 2 = Raise e ->
        research_question_2 lib df = Raise e)
  /\ (forall r rep,
        research_question_2 lib df = Ok (r, rep) ->
        exists model irow rrow srow,
          ols_fit lib two_way_formula df = Ok model
          /\ anova_lm lib model 2 = Ok (anova_table r)
          /\ loc (anova_table r) "C(rider_class):C(stage_class)" = Ok irow
          /\ loc (anova_table r) "C(rider_class)" = Ok rrow
          /\ loc (anova_table r) "C(stage_class)" = Ok srow
          /\ r = mkTwoWay (PR_F irow) (PR_F rrow) (PR_F srow) (anova_table r))
  /\ (forall model tbl irow rrow srow,
        ols_fit lib two_way_formula df = Ok model ->
        anova_lm lib model 2 = Ok tbl ->
        loc tbl "C(rider_class):C(stage_class)" = Ok irow ->
        loc tbl "C(rider_class)" = Ok rrow ->
        loc tbl "C(stage_class)" = Ok srow ->
        ((PR_F irow <? 0.05)%float = false ->
         research_question_2 lib df
         = Ok (mkTwoWay (PR_F irow) (PR_F rrow) (PR_F srow) tbl, None))
        /\ (forall rs,
              (PR_F irow <? 0.05)%float = true ->
              mapM (stage_entry lib df) (unique (map stage_class df)) = Ok rs ->
              research_question_2 lib df
              = Ok (mkTwoWay (PR_F irow) (PR_F rrow) (PR_F srow) tbl,
                    Some rs))).
Proof.
  split; [| split; [| split]].
  - intros e H. unfold research_question_2. rewrite H. reflexivity.
  - intros model e Hols H. unfold research_question_2.
    rewrite Hols. cbn [bind]. rewrite H. reflexivity.
  - intros r rep H. unfold research_question_2 in H.
    apply bind_Ok_inv in H as (model & Hols & H).
    apply bind_Ok_inv in H as (tbl & Hanova & H).
    apply bind_Ok_inv in H as (irow & Hi & H).
    apply bind_Ok_inv in H as (rrow & Hr & H).
    apply bind_Ok_inv in H as (srow & Hs & H).
    apply bind_Ok_inv in H as (sres & _ & [= <- <-]).
    exists model, irow, rrow, srow. cbn. auto 10.
  - intros model tbl irow rrow srow Hols Hanova Hi Hr Hs.
    rewrite (research_question_2_fit lib df model tbl irow rrow srow)
      by assumption.
    split.
    + intros Hsig. rewrite Hsig. reflexivity.
    + intros rs Hsig Hrs. rewrite Hsig, Hrs. reflexivity.
Qed.

(** The interaction is not significant: the three p-values of the table
    come back and nothing else is run. *)
Lemma two_way_always_parametric_witness :
  research_question_2 skewed_lib identical_df
  = Ok (mkTwoWay 0.4 0.2 0.3 (two_way_table 0.2 0.3 0.4), None).
Proof.
  apply (proj1 (proj2 (proj2 (proj2
           (two_way_always_parametric skewed_lib identical_df)))
           identical_df (two_way_table 0.2 0.3 0.4)
           (mkAnovaRow 30 6 4.7 0.4) (mkAnovaRow 40 3 12.5 0.2)
           (mkAnovaRow 12 2 5.6 0.3) eq_refl eq_refl eq_refl eq_refl eq_refl)).
  reflexivity.
Defined.

Lemma stage_all_normal_inv (lib : StatsLib)
  (zipped : list (label * sample)) (an : bool) :
  stage_all_normal lib zipped = Ok an ->
  an = true
  <-> Forall (fun cg => forall v,
                test_normality lib (snd cg) alpha_default = Ok (Some v) ->
                verdict_passes v = true) zipped.
Proof.
  revert an. induction zipped as [| [cls g] zipped IH]; intros an H.
  - injection H as <-. split; [constructor | reflexivity].
  - cbn [stage_all_normal] in H. apply bind_Ok_inv in H as (r & Hr & H).
    destruct r as [v |].
    + pose proof (test_normality_verdict lib g v Hr) as Hv.
      destruct (n_is_normal v) eqn:En; cbn [negb] in H.
      * rewrite (IH an H). split.
        -- intros Hall. constructor; [| exact Hall].
           cbn [snd]. intros v' Hv'. rewrite Hr in Hv'.
           injection Hv' as <-. symmetry. exact Hv.
        -- intros Hall. inversion Hall. assumption.
      * injection H as <-. split; [discriminate |].
        intros Hall. inversion Hall as [| ? ? Hhead _]. cbn [snd] in Hhead.
        rewrite (Hhead v Hr) in Hv. discriminate.
    + rewrite (IH an H). split.
      * intros Hall. constructor; [| exact Hall].
        cbn [snd]. intros v' Hv'. rewrite Hr in Hv'. discriminate.
      * intros Hall. inversion Hall. assumption.
Qed.

Lemma stage_test_selection (lib : StatsLib) (stage_df : dataframe)
  (sr : StageResult) :
  stage_test lib stage_df = Ok sr ->
  let rider_classes := unique (map rider_class stage_df) in
  let groups := rider_groups stage_df rider_classes in
  exists ls lp,
    levene lib groups = Ok (ls, lp)
    /\ (s_test sr = "ANOVA"%string
        <-> Forall (fun cg => forall v,
                      test_normality lib (snd cg) alpha_default = Ok (Some v) ->
                      verdict_passes v = true)
                   (combine rider_classes groups)
            /\ (0.05 <? lp)%float = true).
Proof.
  intros H rider_classes groups. unfold stage_test in H.
  fold rider_classes groups in H.
  apply bind_Ok_inv in H as (an & Han & H).
  apply bind_Ok_inv in H as (vt & Hvt & H).
  apply stage_all_normal_inv in Han.
  apply test_variance_homogeneity_inv in Hvt as (Hlev & Heq & _).
  exists (v_statistic vt), (v_p_value vt). split; [exact Hlev |].
  change (alpha_default <? v_p_value vt)%float
    with (0.05 <? v_p_value vt)%float in Heq.
  rewrite <- Heq, <- Han.
  destruct an, (v_equal_variances vt); cbn [andb] in H;
    apply bind_Ok_inv in H as ([x p] & _ & [= <-]); cbn [s_test];
    split; try tauto; try discriminate;
    intros [? ?]; discriminate.
Qed.

(** C4 (as the code has it): the stratified re-analysis runs iff the
    interaction p-value is strictly less than 0.05.  When it runs, there is
    one entry per distinct stage class, in order of first appearance; the
    entry of a stage class is [stage_test] on the rows of that stage class,
    with the groups rebuilt over rider_class: the normality checks, Levene's
    check, then the one-way ANOVA iff no normality verdict that a group gets
    fails and Levene's p-value is strictly greater than 0.05, and the
    Kruskal-Wallis test otherwise, significant iff its p-value is strictly
    less than 0.05.  No post-hoc procedure is run in a stratum: the outcome
    is the same when both post-hoc routines are replaced by routines that
    raise. *)
Theorem stratified_reanalysis (lib : StatsLib) (df : dataframe)
  (model : fitted_model lib) (tbl : AnovaTable) (irow rrow srow : AnovaRow) :
  ols_fit lib two_way_formula df = Ok model ->
  anova_lm lib model 2 = Ok tbl ->
  loc tbl "C(rider_class):C(stage_class)" = Ok irow ->
  loc tbl "C(rider_class)" = Ok rrow ->
  loc tbl "C(stage_class)" = Ok srow ->
  (forall s, In s (unique (map stage_class df)) ->
             returns (stage_test lib (where_stage_class s df))) ->
  exists r rep,
    research_question_2 lib df = Ok (r, rep)
    /\ interaction_p r = PR_F irow
    /\ ((interaction_p r <? 0.05)%float = false -> rep = None)
    /\ ((interaction_p r <? 0.05)%float = true ->
        exists rs,
          rep = Some rs
          /\ map fst rs = unique (map stage_class df)
          /\ Forall (fun e =>
               let stage_df := where_stage_class (fst e) df in
               let rider_classes := unique (map rider_class stage_df) in
               let groups := rider_groups stage_df rider_classes in
               stage_test lib stage_df = Ok (snd e)
               /\ s_significant (snd e) = (s_p_value (snd e) <? 0.05)%float
               /\ (exists ls lp,
                     levene lib groups = Ok (ls, lp)
                     /\ (s_test (snd e) = "ANOVA"%string
                         <-> Forall (fun cg => forall v,
                                       test_normality lib (snd cg)
                                         alpha_default = Ok (Some v) ->
                                       verdict_passes v = true)
                                    (combine rider_classes groups)
                             /\ (0.05 <? lp)%float = true))
               /\ ((s_test (snd e) = "ANOVA"%string
                    /\ f_oneway lib groups
                       = Ok (s_statistic (snd e), s_p_value (snd e)))
                   \/ (s_test (snd e) = "Kruskal-Wallis"%string
                       /\ kruskal lib groups
                          = Ok (s_statistic (snd e), s_p_value (snd e)))))
               rs)
    /\ research_question_2 (without_posthoc lib) df = Ok (r, rep).
Proof.
  intros Hols Hanova Hi Hr Hs Hstages.
  assert (Hsame : research_question_2 (without_posthoc lib) df
                  = research_question_2 lib df) by reflexivity.
  rewrite Hsame.
  rewrite (research_question_2_fit lib df model tbl irow rrow srow)
    by assumption.
  destruct (PR_F irow <? 0.05)%float eqn:Esig.
  - destruct (mapM_returns (stage_entry lib df) (unique (map stage_class df)))
      as [rs Hrs].
    { intros s Hin. destruct (Hstages s Hin) as [sr Hsr].
      exists (s, sr). unfold stage_entry. rewrite Hsr. reflexivity. }
    rewrite Hrs. cbn [bind]. eexists. eexists.
    split; [reflexivity |]. cbn [interaction_p]. split; [reflexivity |].
    rewrite Esig. split; [discriminate |]. split; [| reflexivity].
    intros _. exists rs. split; [reflexivity |].
    apply stage_entries in Hrs as [Hfst Hall]. split; [exact Hfst |].
    eapply Forall_impl; [| exact Hall].
    intros e He. cbv zeta. split; [exact He |].
    pose proof (stage_test_inv lib _ _ He) as [Hsig Hrun].
    split; [exact Hsig |]. split; [| exact Hrun].
    exact (stage_test_selection lib _ _ He).
  - cbn [bind]. eexists. eexists.
    split; [reflexivity |]. cbn [interaction_p]. split; [reflexivity |].
    rewrite Esig. split; [reflexivity |]. split; [discriminate | reflexivity].
Qed.

(** A Kruskal-Wallis stratum and an ANOVA stratum: on the flat stages every
    verdict fails; on the mountain stages groups A and B pass, group C has
    no verdict, and Levene's verdict passes. *)
Lemma stratified_reanalysis_witness :
  exists r rs,
    research_question_2 two_paths_lib two_paths_df = Ok (r, Some rs)
    /\ rs = [("flat"%string, mkStage "Kruskal-Wallis" 9.8 0.0074 true);
             ("mountain"%string, mkStage "ANOVA" 14.2 0.0001 true)]
    /\ test_normality two_paths_lib [61; 62]%float alpha_default = Ok None
    /\ Forall (fun e =>
         let stage_df := where_stage_class (fst e) two_paths_df in
         let rider_classes := unique (map rider_class stage_df) in
         let groups := rider_groups stage_df rider_classes in
         exists ls lp,
           levene two_paths_lib groups = Ok (ls, lp)
           /\ (s_test (snd e) = "ANOVA"%string
               <-> Forall (fun cg => forall v,
                             test_normality two_paths_lib (snd cg)
                               alpha_default = Ok (Some v) ->
                             verdict_passes v = true)
                          (combine rider_classes groups)
                   /\ (0.05 <? lp)%float = true)) rs.
Proof.
  destruct (stratified_reanalysis two_paths_lib two_paths_df two_paths_df
              (two_way_table 0.2 0.3 0.001)
              (mkAnovaRow 30 6 4.7 0.001) (mkAnovaRow 40 3 12.5 0.2)
              (mkAnovaRow 12 2 5.6 0.3) eq_refl eq_refl eq_refl eq_refl eq_refl)
    as (r & rep & Hrq & Hip & _ & Hrun & _).
  - intros s [<- | [<- | []]]; eexists; vm_compute; reflexivity.
  - rewrite Hip in Hrun. destruct (Hrun eq_refl) as (rs & -> & _ & Hall).
    exists r, rs. split; [exact Hrq |].
    split.
    + assert (E : exists r0,
                 research_question_2 two_paths_lib two_paths_df
                 = Ok (r0, Some
                         [("flat"%string,
                           mkStage "Kruskal-Wallis" 9.8 0.0074 true);
                          ("mountain"%string,
                           mkStage "ANOVA" 14.2 0.0001 true)]))
        by (eexists; vm_compute; reflexivity).
      destruct E as [r0 E]. rewrite E in Hrq. injection Hrq as _ Hrs.
      symmetry. exact Hrs.
    + split; [reflexivity |].
      eapply Forall_impl; [| exact Hall]. cbv zeta. intros e He.
      apply He.
Defined.

(** C4 fails as stated: in Scenario 4 both strata are significant, and the
    re-analysis returns the same with post-hoc routines that raise, so it
    runs no post-hoc procedure; the one-way sequence of
    [research_question_1] on the rows of the stratum does run one, and
    raises with such routines.  The same holds after a significant one-way
    ANOVA in a stratum ([two_paths_df], mountain stages). *)
Lemma stratified_reanalysis_counterexample :
  (exists r,
     research_question_2 (without_posthoc crossover_lib) crossover_df
     = Ok (r, Some [("flat"%string,
                     mkStage "Kruskal-Wallis" 9.8 0.0074 true);
                    ("mountain"%string,
                     mkStage "Kruskal-Wallis" 9.8 0.0074 true)]))
  /\ (exists rows,
        research_question_1 crossover_lib
          (where_stage_class "flat" crossover_df)
        = Ok (KruskalWallis 9.8 0.0074 true,
              mkReport
                [("A"%string, mkNormality "Shapiro-Wilk" 0.71 None
                                (Some 0.003%float) false alpha_default);
                 ("B"%string, mkNormality "Shapiro-Wilk" 0.71 None
                                (Some 0.003%float) false alpha_default);
                 ("C"%string, mkNormality "Shapiro-Wilk" 0.71 None
                                (Some 0.003%float) false alpha_default)]
                (mkVariance "Levene's" 0.9 0.46 true alpha_default)
                (Some (MannWhitneyU 3 (0.05 / float_of_int 3)%float rows)))
        /\ len rows = 3)
  /\ research_question_1 (without_posthoc crossover_lib)
       (where_stage_class "flat" crossover_df)
     = Raise (LibraryError "post-hoc routine")
  /\ (exists r,
        research_question_2 (without_posthoc two_paths_lib) two_paths_df
        = Ok (r, Some [("flat"%string,
                        mkStage "Kruskal-Wallis" 9.8 0.0074 true);
                       ("mountain"%string,
                        mkStage "ANOVA" 14.2 0.0001 true)]))
  /\ (exists rep,
        research_question_1 two_paths_lib
          (where_stage_class "mountain" two_paths_df)
        = Ok (ANOVA 14.2 0.0001 true, rep)
        /\ rep_posthoc rep = Some (TukeyHSD []))
  /\ research_question_1 (without_posthoc two_paths_lib)
       (where_stage_class "mountain" two_paths_df)
     = Raise (LibraryError "post-hoc routine").
Proof.
  split; [eexists; vm_compute; reflexivity |].
  split; [eexists; split; [vm_compute; reflexivity | reflexivity] |].
  split; [vm_compute; reflexivity |].
  split; [eexists; vm_compute; reflexivity |].
  split; [| vm_compute; reflexivity].
  eexists. split; [vm_compute; reflexivity | reflexivity].
Qed.

(** ** When a post-hoc block runs *)

(** [research_question_1] runs a post-hoc block exactly after a significant
    main test: Tukey's HSD after the one-way ANOVA, the Mann-Whitney U block
    after the Kruskal-Wallis test, whatever the number of groups. *)
Theorem posthoc_follows_significance (lib : StatsLib) (df : dataframe)
  (r : OneWayResult) (rep : OneWayReport) :
  research_question_1 lib df = Ok (r, rep) ->
  match rep_posthoc rep with
  | None => ow_significant r = false
  | Some (TukeyHSD _) =>
      ow_significant r = true /\ ow_test r = "ANOVA"%string
  | Some (MannWhitneyU _ _ _) =>
      ow_significant r = true /\ ow_test r = "Kruskal-Wallis"%string
  end.
Proof.
  intros H. apply research_question_1_inv in H as (_ & _ & Hpath).
  destruct (rq1_all_normal (rep_normality rep)
            && v_equal_variances (rep_variance rep)).
  - destruct Hpath as (f & p & _ & -> & Hpost). cbn [ow_significant ow_test].
    destruct (p <? 0.05)%float.
    + destruct Hpost as (ph & Hph & ->). unfold tukey_posthoc in Hph.
      apply bind_Ok_inv in Hph as (t & _ & [= <-]). split; reflexivity.
    + rewrite Hpost. reflexivity.
  - destruct Hpath as (h & p & _ & -> & Hpost). cbn [ow_significant ow_test].
    destruct (p <? 0.05)%float.
    + destruct Hpost as (ph & Hph & ->). unfold mann_whitney_posthoc in Hph.
      apply bind_Ok_inv in Hph as (a & _ & Hph).
      apply bind_Ok_inv in Hph as (rows & _ & [= <-]). split; reflexivity.
    + rewrite Hpost. reflexivity.
Qed.

(** Scenario 1: the one-way ANOVA is not significant and no post-hoc block
    runs. *)
Lemma posthoc_follows_significance_witness :
  ow_significant (ANOVA 0 1 false) = false.
Proof.
  exact (posthoc_follows_significance identical_lib identical_df
           (ANOVA 0 1 false)
           (mkReport [("A"%string, shapiro_normal);
                      ("B"%string, shapiro_normal);
                      ("C"%string, shapiro_normal)]
                     (mkVariance "Levene's" 0%float 1%float true
                                 alpha_default)
                     None)
           ltac:(vm_compute; reflexivity)).
Defined.

(** ** How the groups are built *)










(** ** [test_normality]: what the verdict depends on *)

(** On samples of at most 5000 values the outcome of [test_normality]
    depends on the finite values only: two samples with the same finite
    values, in the same order, get the same outcome, wherever their NaN and
    infinite entries are. *)
Theorem test_normality_finite_values_only (lib : StatsLib)
  (data1 data2 : sample) (alpha : float) :
  len data1 <= 5000 ->
  len data2 <= 5000 ->
  filter PrimFloat.is_finite data1 = filter PrimFloat.is_finite data2 ->
  test_normality lib data1 alpha = test_normality lib data2 alpha.
Proof.
  intros H1 H2 E.
  rewrite !test_normality_small by assumption. rewrite E. reflexivity.
Qed.

Lemma test_normality_finite_values_only_witness :
  test_normality calm_lib [1; nan; 2; 3]%float alpha_default
  = test_normality calm_lib [1; 2; infinity; 3; neg_infinity]%float
                   alpha_default.
Proof.
  apply test_normality_finite_values_only;
    [vm_compute; discriminate | vm_compute; discriminate | reflexivity].
Defined.

(** On a sample of more than 5000 values the argument [alpha] decides
    nothing: it is recorded in the verdict, and the statistic, the critical
    value and the decision are the same for every [alpha]. *)
Theorem test_normality_large_sample_ignores_alpha (lib : StatsLib)
  (data : sample) (alpha1 alpha2 : float) :
  5000 < len data ->
  match test_normality lib data alpha1, test_normality lib data alpha2 with
  | Ok (Some v1), Ok (Some v2) =>
      n_is_normal v1 = n_is_normal v2
      /\ n_statistic v1 = n_statistic v2
      /\ n_critical_value v1 = n_critical_value v2
      /\ n_alpha v1 = alpha1 /\ n_alpha v2 = alpha2
  | Raise e1, Raise e2 => e1 = e2
  | _, _ => False
  end.
Proof.
  intros H. rewrite !test_normality_large by exact H.
  destruct (anderson lib data) as [r | e]; cbn [bind]; [| reflexivity].
  destruct (last_item (ad_critical_values r)) as [c | e]; cbn [bind];
    [| reflexivity].
  cbn. repeat split.
Qed.

Lemma test_normality_large_sample_ignores_alpha_witness :
  match test_normality calm_lib (repeat 1%float (Z.to_nat 5001)) 0.01%float,
        test_normality calm_lib (repeat 1%float (Z.to_nat 5001)) 0.5%float
  with
  | Ok (Some v1), Ok (Some v2) =>
      n_is_normal v1 = n_is_normal v2
      /\ n_statistic v1 = n_statistic v2
      /\ n_critical_value v1 = n_critical_value v2
      /\ n_alpha v1 = 0.01%float /\ n_alpha v2 = 0.5%float
  | Raise e1, Raise e2 => e1 = e2
  | _, _ => False
  end.
Proof.
  exact (test_normality_large_sample_ignores_alpha calm_lib
           (repeat 1%float (Z.to_nat 5001)) 0.01%float 0.5%float
           ltac:(vm_compute; reflexivity)).
Defined.

Lemma test_normality_has_verdict (lib : StatsLib) (data : sample)
  (alpha : float) (r : option NormalityResult) :
  test_normality lib data alpha = Ok r ->
  (exists v, r = Some v) <-> has_verdict data = true.
Proof.
  unfold test_normality, has_verdict.
  destruct (5000 <? len data); cbn [orb].
  - intros H. inv_bind H. injection H as <-. split; eauto.
  - rewrite Z.leb_antisym.
    destruct (len (filter PrimFloat.is_finite data) <? 3); cbn [negb].
    + intros [= <-]. split; [intros [v Hv]; discriminate | discriminate].
    + intros H. apply bind_Ok_inv in H as ([s p] & _ & [= <-]).
      split; eauto.
Qed.

Lemma normality_by_class_keys (lib : StatsLib) (f : label -> sample)
  (L : list label) (nr : list (label * NormalityResult)) :
  normality_by_class lib (map (fun c => (c, f c)) L) = Ok nr ->
  forall c, In c (map fst nr) <-> In c L /\ has_verdict (f c) = true.
Proof.
  revert nr. induction L as [| x L IH]; intros nr H c.
  - injection H as <-. simpl. tauto.
  - cbn [map normality_by_class] in H.
    apply bind_Ok_inv in H as (r & Hr & H).
    apply bind_Ok_inv in H as (entries & Hentries & [= <-]).
    specialize (IH entries Hentries c).
    pose proof (test_normality_has_verdict lib (f x) alpha_default r Hr)
      as Hv.
    destruct r as [v |].
    + cbn [map fst In]. rewrite IH. split.
      * intros [<- | [Hin Hc]]; [| tauto].
        split; [left; reflexivity | apply Hv; eauto].
      * intros [[<- | Hin] Hc]; [left; reflexivity | right; tauto].
    + rewrite IH. cbn [In]. split; [tauto |].
      intros [[<- | Hin] Hc]; [| tauto].
      apply Hv in Hc as [v Hv']. discriminate.
Qed.

Lemma combine_map_self {A B : Type} (f : A -> B) (l : list A) :
  combine l (map f l) = map (fun a => (a, f a)) l.
Proof.
  induction l as [| a l IH]; [reflexivity |]. simpl. rewrite IH. reflexivity.
Qed.

(** The rider classes that get an entry in [normality_results] are those
    whose group has more than 5000 values or at least three finite values;
    the other classes are passed over without a message. *)
Theorem normality_results_keys (lib : StatsLib) (df : dataframe)
  (r : OneWayResult) (rep : OneWayReport) :
  research_question_1 lib df = Ok (r, rep) ->
  forall cls,
    In cls (map fst (rep_normality rep))
    <-> In cls (map rider_class df)
        /\ has_verdict (points_values (where_rider_class cls df)) = true.
Proof.
  intros H cls. apply research_question_1_inv in H as (Hnr & _).
  unfold rider_groups in Hnr. rewrite combine_map_self in Hnr.
  rewrite (normality_by_class_keys lib _ _ _ Hnr cls), unique_In.
  reflexivity.
Qed.

Lemma normality_results_keys_witness :
  In "B"%string (map fst [("B"%string, shapiro_normal)])
  <-> In "B"%string (map rider_class mixed_df)
      /\ has_verdict (points_values (where_rider_class "B" mixed_df)) = true.
Proof.
  exact (normality_results_keys calm_lib mixed_df (ANOVA 1.53 0.271 false)
           (mkReport [("B"%string, shapiro_normal)]
              (mkVariance "Levene's" 1.25%float 0.314%float true
                          alpha_default)
              None)
           ltac:(vm_compute; reflexivity) "B"%string).
Defined.

(** ** The pairs that are compared *)

Lemma unordered_pairs_distinct {A : Type} (l : list A) (a b : A) :
  NoDup l -> In (a, b) (unordered_pairs l) -> a <> b.
Proof.
  induction 1 as [| x l Hx Hnd IH]; [intros [] |].
  cbn [unordered_pairs]. rewrite in_app_iff, in_map_iff.
  intros [(y & [= <- <-] & Hy) | H]; [| exact (IH H)].
  intros ->. contradiction.
Qed.

Lemma unordered_pairs_one_order {A : Type} (l : list A) (a b : A) :
  NoDup l -> In (a, b) (unordered_pairs l) -> ~ In (b, a) (unordered_pairs l).
Proof.
  induction 1 as [| x l Hx Hnd IH]; [intros [] |].
  cbn [unordered_pairs]. rewrite !in_app_iff, !in_map_iff.
  intros [(y & E & Hy) | H] [(z & E' & Hz) | H'].
  - injection E as <- <-. injection E' as E' _. subst. contradiction.
  - injection E as <- <-.
    apply unordered_pairs_In in H' as [_ H']. contradiction.
  - injection E' as <- <-.
    apply unordered_pairs_In in H as [_ H]. contradiction.
  - exact (IH H H').
Qed.

Lemma unordered_pairs_NoDup {A : Type} (l : list A) :
  NoDup l -> NoDup (unordered_pairs l).
Proof.
  induction 1 as [| x l Hx Hnd IH]; [constructor |].
  cbn [unordered_pairs]. apply NoDup_app; [| exact IH |].
  - clear IH Hx. induction Hnd as [| y l Hy _ IH]; [constructor |].
    cbn [map]. constructor; [| exact IH].
    rewrite in_map_iff. intros (z & [= ->] & Hz). contradiction.
  - intros [a b] Hab Hab'. apply in_map_iff in Hab as (y & [= <- <-] & _).
    apply unordered_pairs_In in Hab' as [Hin _]. contradiction.
Qed.

Lemma unordered_pairs_complete {A : Type} (l : list A) (a b : A) :
  In a l -> In b l -> a <> b ->
  In (a, b) (unordered_pairs l) \/ In (b, a) (unordered_pairs l).
Proof.
  induction l as [| x l IH]; [intros [] |].
  cbn [unordered_pairs]. rewrite !in_app_iff, !in_map_iff.
  intros [-> | Ha] [-> | Hb] Hne.
  - congruence.
  - left. left. eauto.
  - right. left. eauto.
  - destruct (IH Ha Hb Hne); [left | right]; right; assumption.
Qed.

Lemma mann_whitney_posthoc_labels (lib : StatsLib)
  (rider_classes : list label) (groups : list sample)
  (n : Z) (alpha : float) (pairs : list PairResult) :
  List.length groups = List.length rider_classes ->
  mann_whitney_posthoc lib rider_classes groups
    = Ok (MannWhitneyU n alpha pairs) ->
  map (fun row => (group1 row, group2 row)) pairs
  = unordered_pairs rider_classes.
Proof.
  intros Hlen H.
  destruct (Z_lt_le_dec (len rider_classes) 2) as [Hk | Hk].
  - rewrite mann_whitney_posthoc_no_pair in H by exact Hk. discriminate.
  - rewrite mann_whitney_posthoc_spec in H by assumption.
    apply bind_Ok_inv in H as (rs & Hrs & [= _ _ <-]).
    apply mapM_Ok_Forall2 in Hrs.
    rewrite <- (map_fst_combine_eq rider_classes groups Hlen) at 1.
    rewrite unordered_pairs_map.
    induction Hrs as [| pr row prs rs' H _ IH]; [reflexivity |].
    cbn [map]. f_equal; [| exact IH].
    unfold pair_test in H. apply bind_Ok_inv in H as (up & _ & [= <-]).
    reflexivity.
Qed.

(** The Mann-Whitney U block of [research_question_1] compares every two
    different rider classes of the data exactly once: no class with itself,
    no pair twice, in either order, and no pair left out. *)
Theorem posthoc_pairs_exactly_once (lib : StatsLib) (df : dataframe)
  (r : OneWayResult) (rep : OneWayReport)
  (n : Z) (alpha : float) (pairs : list PairResult) :
  research_question_1 lib df = Ok (r, rep) ->
  rep_posthoc rep = Some (MannWhitneyU n alpha pairs) ->
  let compared := map (fun row => (group1 row, group2 row)) pairs in
  NoDup compared
  /\ (forall a b, In (a, b) compared ->
        a <> b /\ ~ In (b, a) compared
        /\ In a (map rider_class df) /\ In b (map rider_class df))
  /\ (forall a b, In a (map rider_class df) -> In b (map rider_class df) ->
        a <> b -> In (a, b) compared \/ In (b, a) compared).
Proof.
  intros H Hpost compared.
  apply research_question_1_inv in H as (_ & _ & Hpath).
  assert (Hph : mann_whitney_posthoc lib (unique (map rider_class df))
                  (rider_groups df (unique (map rider_class df)))
                = Ok (MannWhitneyU n alpha pairs)).
  { destruct (rq1_all_normal (rep_normality rep)
              && v_equal_variances (rep_variance rep)).
    - destruct Hpath as (f & p & _ & _ & Hp).
      destruct (p <? 0.05)%float; [| congruence].
      destruct Hp as (ph & Hph & Hrep). unfold tukey_posthoc in Hph.
      apply bind_Ok_inv in Hph as (t & _ & [= <-]). congruence.
    - destruct Hpath as (h & p & _ & _ & Hp).
      destruct (p <? 0.05)%float; [| congruence].
      destruct Hp as (ph & Hph & Hrep). congruence. }
  apply mann_whitney_posthoc_labels in Hph; [| apply rider_groups_length].
  unfold compared. rewrite Hph.
  pose proof (unique_NoDup (map rider_class df)) as Hnd.
  split; [apply unordered_pairs_NoDup; exact Hnd |]. split.
  - intros a b Hab. split; [exact (unordered_pairs_distinct _ _ _ Hnd Hab) |].
    split; [exact (unordered_pairs_one_order _ _ _ Hnd Hab) |].
    apply unordered_pairs_In in Hab. rewrite !unique_In in Hab. exact Hab.
  - intros a b Ha Hb Hne.
    apply unordered_pairs_complete; [apply unique_In .. | exact Hne];
      assumption.
Qed.

(** The flat stratum of Scenario 4: A-B, A-C and B-C. *)
Lemma posthoc_pairs_exactly_once_witness :
  NoDup [("A", "B"); ("A", "C"); ("B", "C")]%string
  /\ (In ("A", "C") [("A", "B"); ("A", "C"); ("B", "C")]
      \/ In ("C", "A") [("A", "B"); ("A", "C"); ("B", "C")])%string.
Proof.
  destruct (posthoc_pairs_exactly_once crossover_lib flat_stratum
              (KruskalWallis 9.8 0.0074 true)
              (mkReport
                 [("A"%string, mkNormality "Shapiro-Wilk" 0.71 None
                                 (Some 0.003%float) false alpha_default);
                  ("B"%string, mkNormality "Shapiro-Wilk" 0.71 None
                                 (Some 0.003%float) false alpha_default);
                  ("C"%string, mkNormality "Shapiro-Wilk" 0.71 None
                                 (Some 0.003%float) false alpha_default)]
                 (mkVariance "Levene's" 0.9 0.46 true alpha_default)
                 (Some (MannWhitneyU 3 (0.05 / float_of_int 3)%float
                    [mkPair "A" "B" 0 0.03 false; mkPair "A" "C" 0 0.03 false;
                     mkPair "B" "C" 0 0.03 false])))
              3 (0.05 / float_of_int 3)%float
              [mkPair "A" "B" 0 0.03 false; mkPair "A" "C" 0 0.03 false;
               mkPair "B" "C" 0 0.03 false]
              ltac:(vm_compute; reflexivity) eq_refl)
    as (Hnd & _ & Hall).
  split; [exact Hnd |].
  apply Hall; [vm_compute; tauto | vm_compute; tauto | discriminate].
Defined.

(** ** The two one-way sequences side by side *)

(** When at least one group has a normality verdict, the re-analysis of a
    stratum reaches the verdict that [research_question_1] returns on the
    same rows: the same test, statistic, p-value and significance. *)
Theorem stage_test_agrees_with_rq1 (lib : StatsLib) (stage_df : dataframe)
  (r : OneWayResult) (rep : OneWayReport) :
  research_question_1 lib stage_df = Ok (r, rep) ->
  rep_normality rep <> [] ->
  stage_test lib stage_df
  = Ok (mkStage (ow_test r) (ow_statistic r) (ow_p_value r)
                (ow_significant r)).
Proof.
  intros H Hne. apply research_question_1_inv in H as (Hnr & Hvt & Hpath).
  destruct (normality_by_class_verdicts lib _ _ Hnr) as (rs & Hrs & Enr).
  unfold stage_test.
  rewrite (stage_all_normal_spec lib _ rs Hrs), <- Enr. cbn [bind].
  rewrite Hvt. cbn [bind].
  assert (E : rq1_all_normal (rep_normality rep)
              = forallb (fun e => n_is_normal (snd e)) (rep_normality rep)).
  { destruct (rep_normality rep); [congruence | reflexivity]. }
  rewrite E in Hpath.
  destruct (forallb (fun e => n_is_normal (snd e)) (rep_normality rep)
            && v_equal_variances (rep_variance rep)).
  - destruct Hpath as (f & p & Hf & -> & _). rewrite Hf. reflexivity.
  - destruct Hpath as (h & p & Hh & -> & _). rewrite Hh. reflexivity.
Qed.

Lemma stage_test_agrees_with_rq1_witness :
  stage_test calm_lib mixed_df = Ok (mkStage "ANOVA" 1.53 0.271 false).
Proof.
  exact (stage_test_agrees_with_rq1 calm_lib mixed_df
           (ANOVA 1.53 0.271 false)
           (mkReport [("B"%string, shapiro_normal)]
              (mkVariance "Levene's" 1.25%float 0.314%float true
                          alpha_default)
              None)
           ltac:(vm_compute; reflexivity) ltac:(discriminate)).
Defined.

(** ** Too few groups *)

Lemma bind_not_returning {A B : Type} (m : res A) (k : A -> res B) :
  (forall a, m = Ok a -> exists e, k a = Raise e) ->
  exists e, bind m k = Raise e.
Proof.
  destruct m as [a | e]; intros H;
    [apply H; reflexivity | exists e; reflexivity].
Qed.

(** With a Levene routine that rejects fewer than two samples, data with
    fewer than two rider classes, the empty data frame included, gets no
    result: [research_question_1] raises, at the latest in the variance
    check, and so does [main], which never reaches the two-way analysis. *)
Theorem fewer_than_two_rider_classes (lib : StatsLib) (df : dataframe) :
  levene_needs_two_samples lib ->
  len (unique (map rider_class df)) < 2 ->
  exists e, research_question_1 lib df = Raise e /\ main lib df = Raise e.
Proof.
  intros Hlev Hk.
  assert (H : exists e, research_question_1 lib df = Raise e).
  { unfold research_question_1. apply bind_not_returning. intros nr _.
    destruct (Hlev (rider_groups df (unique (map rider_class df)))) as [e He].
    - unfold len in *. rewrite rider_groups_length. exact Hk.
    - exists e. unfold test_variance_homogeneity. rewrite He. reflexivity. }
  destruct H as [e He]. exists e. split; [exact He |].
  unfold main. rewrite He. reflexivity.
Qed.

Lemma fewer_than_two_rider_classes_witness :
  exists e,
    research_question_1 calm_lib (rows "A" "flat" [1; 2; 3; 4]%float)
    = Raise e
    /\ main calm_lib (rows "A" "flat" [1; 2; 3; 4]%float) = Raise e.
Proof.
  apply fewer_than_two_rider_classes.
  - intros groups Hlt. unfold calm_lib, fixed_lib, fixed_outcome. cbn.
    destruct (Z.leb_spec 2 (len groups)) as [Hge | _];
      [lia | eexists; reflexivity].
  - vm_compute. reflexivity.
Defined.

Lemma mapM_raises {A B : Type} (f : A -> res B) (l : list A) (a : A)
  (e : exn) :
  In a l -> f a = Raise e -> exists e', mapM f l = Raise e'.
Proof.
  induction l as [| x l IH]; intros Hin Ha; [destruct Hin |].
  cbn [mapM]. destruct Hin as [-> | Hin].
  - rewrite Ha. exists e. reflexivity.
  - destruct (f x) as [b | e0]; cbn [bind]; [| exists e0; reflexivity].
    destruct (IH Hin Ha) as [e' He']. rewrite He'. exists e'. reflexivity.
Qed.

(** When the interaction is significant and one stage class has rows of a
    single rider class, [research_question_2] returns nothing, not even the
    two-way table it has computed: with a Levene routine that rejects fewer
    than two samples the re-analysis of that stratum raises, and the
    exception ends the function. *)
Theorem single_class_stratum_aborts (lib : StatsLib) (df : dataframe)
  (model : fitted_model lib) (tbl : AnovaTable) (irow rrow srow : AnovaRow)
  (s : label) :
  levene_needs_two_samples lib ->
  ols_fit lib two_way_formula df = Ok model ->
  anova_lm lib model 2 = Ok tbl ->
  loc tbl "C(rider_class):C(stage_class)" = Ok irow ->
  loc tbl "C(rider_class)" = Ok rrow ->
  loc tbl "C(stage_class)" = Ok srow ->
  (PR_F irow <? 0.05)%float = true ->
  In s (map stage_class df) ->
  len (unique (map rider_class (where_stage_class s df))) < 2 ->
  exists e, research_question_2 lib df = Raise e.
Proof.
  intros Hlev Hols Hanova Hi Hr Hs Hsig Hin Hk.
  rewrite (research_question_2_fit lib df model tbl irow rrow srow)
    by assumption.
  rewrite Hsig.
  assert (Hstage : exists e,
             stage_entry lib df s = Raise e).
  { unfold stage_entry. apply bind_not_returning. intros sr Hsr.
    exfalso. unfold stage_test in Hsr.
    apply bind_Ok_inv in Hsr as (an & _ & Hsr).
    apply bind_Ok_inv in Hsr as (vt & Hvt & _).
    destruct (Hlev (rider_groups (where_stage_class s df)
                      (unique (map rider_class (where_stage_class s df)))))
      as [e He].
    - unfold len in *. rewrite rider_groups_length. exact Hk.
    - unfold test_variance_homogeneity in Hvt. rewrite He in Hvt.
      discriminate. }
  destruct Hstage as [e He].
  destruct (mapM_raises (stage_entry lib df) (unique (map stage_class df))
              s e) as [e' He']; [apply unique_In; exact Hin | exact He |].
  rewrite He'. exists e'. reflexivity.
Qed.

Lemma single_class_stratum_aborts_witness :
  exists e,
    research_question_2 crossover_lib
      (crossover_df ++ rows "A" "sprint" [5; 6; 7]%float) = Raise e.
Proof.
  apply (single_class_stratum_aborts crossover_lib
           (crossover_df ++ rows "A" "sprint" [5; 6; 7]%float)
           (crossover_df ++ rows "A" "sprint" [5; 6; 7]%float)
           (two_way_table 0.2 0.3 0.001)
           (mkAnovaRow 30 6 4.7 0.001) (mkAnovaRow 40 3 12.5 0.2)
           (mkAnovaRow 12 2 5.6 0.3) "sprint"%string).
  - intros groups Hlt. unfold crossover_lib, fixed_lib, fixed_outcome. cbn.
    destruct (Z.leb_spec 2 (len groups)) as [Hge | _];
      [lia | eexists; reflexivity].
  - reflexivity.
  - reflexivity.
  - reflexivity.
  - reflexivity.
  - reflexivity.
  - reflexivity.
  - vm_compute. tauto.
  - vm_compute. reflexivity.
Defined.

(** ** What Tukey's routine is given *)






(** ** [preprocess_cycling_data]: the rows that are kept *)

Section PreprocessFacts.

Context (isspace : ascii -> bool).

Lemma lstrip_hd (s : list ascii) (c : ascii) :
  hd_error (lstrip isspace s) = Some c -> isspace c = false.
Proof.
  induction s as [| a s IH]; [discriminate |].
  cbn [lstrip]. destruct (isspace a) eqn:Ea; [exact IH |].
  intros [= <-]. exact Ea.
Qed.

Lemma lstrip_fixed (s : list ascii) :
  (forall c, hd_error s = Some c -> isspace c = false) ->
  lstrip isspace s = s.
Proof.
  destruct s as [| a s]; [reflexivity |]. intros H.
  cbn [lstrip]. rewrite (H a eq_refl). reflexivity.
Qed.

Lemma lstrip_suffix (s : list ascii) :
  exists w, s = w ++ lstrip isspace s.
Proof.
  induction s as [| a s [w Hw]]; [exists []; reflexivity |].
  cbn [lstrip]. destruct (isspace a).
  - exists (a :: w). cbn. f_equal. exact Hw.
  - exists []. reflexivity.
Qed.

Lemma rstrip_prefix (s : list ascii) :
  exists w, s = rstrip isspace s ++ w.
Proof.
  unfold rstrip. destruct (lstrip_suffix (rev s)) as [w Hw].
  exists (rev w). rewrite <- rev_app_distr, <- Hw, rev_involutive.
  reflexivity.
Qed.

Lemma strip_stripped (s : list ascii) :
  strip isspace s <> [] -> stripped isspace (strip isspace s).
Proof.
  intros Hne. split; [exact Hne |]. split.
  - intros c Hc. unfold strip in *.
    destruct (rstrip_prefix (lstrip isspace s)) as [w Hw].
    destruct (rstrip isspace (lstrip isspace s)) as [| a t];
      [congruence |].
    injection Hc as ->. apply (lstrip_hd s). rewrite Hw. reflexivity.
  - intros c Hc. unfold strip, rstrip in Hc. rewrite rev_involutive in Hc.
    exact (lstrip_hd _ _ Hc).
Qed.

Lemma stripped_fixed (s : list ascii) :
  stripped isspace s -> strip isspace s = s.
Proof.
  intros (_ & Hhd & Hlast). unfold strip, rstrip.
  rewrite (lstrip_fixed s Hhd), (lstrip_fixed (rev s) Hlast).
  apply rev_involutive.
Qed.

Lemma truthy_true {A : Type} (l : list A) : truthy l = true <-> l <> [].
Proof. destruct l; simpl; split; congruence. Qed.

Lemma clean_row_stripped (row : list (list ascii)) :
  Forall (stripped isspace) (clean_row isspace row).
Proof.
  unfold clean_row. apply Forall_map. apply Forall_forall.
  intros f Hf. apply filter_In in Hf as [_ Hf].
  apply strip_stripped. apply truthy_true. exact Hf.
Qed.

Lemma clean_row_fixed (row : list (list ascii)) :
  Forall (stripped isspace) row -> clean_row isspace row = row.
Proof.
  unfold clean_row. induction 1 as [| f row Hf _ IH]; [reflexivity |].
  cbn [filter]. pose proof (stripped_fixed f Hf) as E. rewrite E.
  destruct Hf as (Hne & _). destruct f as [| c f]; [congruence |].
  cbn [truthy map]. rewrite E. f_equal. exact IH.
Qed.

Lemma clean_row_empty (row : list (list ascii)) :
  clean_row isspace row = [] <-> Forall (blank isspace) row.
Proof.
  unfold clean_row, blank. induction row as [| f row IH].
  - split; [constructor | reflexivity].
  - cbn [filter]. destruct (strip isspace f) eqn:E; cbn [truthy].
    + rewrite IH. split; [intros H; constructor; assumption |].
      intros H. inversion H. assumption.
    + cbn [map]. split; [discriminate |].
      intros H. inversion H. congruence.
Qed.

Lemma clean_row_app (row1 row2 : list (list ascii)) :
  clean_row isspace (row1 ++ row2)
  = clean_row isspace row1 ++ clean_row isspace row2.
Proof. unfold clean_row. rewrite filter_app, map_app. reflexivity. Qed.

Lemma clean_row_length (row : list (list ascii)) :
  (List.length (clean_row isspace row) <= List.length row)%nat.
Proof. unfold clean_row. rewrite length_map. apply filter_length_le. Qed.

Lemma read_rows_blank_prefix (pre rest : list (list (list ascii))) :
  Forall (Forall (blank isspace)) pre ->
  read_rows isspace (pre ++ rest) = read_rows isspace rest.
Proof.
  induction 1 as [| row pre Hrow _ IH]; [reflexivity |].
  cbn [app read_rows]. apply clean_row_empty in Hrow. rewrite Hrow.
  exact IH.
Qed.

Lemma read_rows_empty (reader : list (list (list ascii))) :
  read_rows isspace reader = [] <-> Forall (Forall (blank isspace)) reader.
Proof.
  induction reader as [| row reader IH].
  - split; [constructor | reflexivity].
  - cbn [read_rows].
    destruct (clean_row isspace row) eqn:E; cbn [truthy].
    + apply clean_row_empty in E. rewrite IH.
      split; [intros H; constructor; assumption |].
      intros H. inversion H. assumption.
    + split; [discriminate |]. intros H. inversion H as [| ? ? Hrow _].
      apply clean_row_empty in Hrow. congruence.
Qed.

End PreprocessFacts.

(** Every row that [preprocess_cycling_data] keeps has at least one field,
    and every field it keeps is not empty and neither begins nor ends with
    white space. *)
Theorem kept_rows_are_clean (isspace : ascii -> bool)
  (reader : list (list (list ascii))) :
  Forall (fun row => row <> [] /\ Forall (stripped isspace) row)
         (read_rows isspace reader).
Proof.
  induction reader as [| row reader IH]; [constructor |].
  cbn [read_rows].
  destruct (truthy (clean_row isspace row)) eqn:E; [| exact IH].
  constructor; [| exact IH].
  split; [apply truthy_true; exact E | apply clean_row_stripped].
Qed.

(** Reading rows that were already read changes nothing: the cleaning is
    idempotent. *)
Theorem read_rows_idempotent (isspace : ascii -> bool)
  (reader : list (list (list ascii))) :
  read_rows isspace (read_rows isspace reader) = read_rows isspace reader.
Proof.
  induction reader as [| row reader IH]; [reflexivity |].
  cbn [read_rows].
  destruct (truthy (clean_row isspace row)) eqn:E; [| exact IH].
  cbn [read_rows].
  rewrite (clean_row_fixed isspace _ (clean_row_stripped isspace row)), E.
  f_equal. exact IH.
Qed.

(** A field with nothing but white space in it, an empty quoted field
    included, vanishes from its row: the fields after it move one place to
    the left and the row gets shorter than it was read. *)
Theorem blank_field_vanishes (isspace : ascii -> bool)
  (before after : list (list ascii)) (field : list ascii) :
  blank isspace field ->
  clean_row isspace (before ++ field :: after)
  = clean_row isspace before ++ clean_row isspace after
  /\ (List.length (clean_row isspace (before ++ field :: after))
      < List.length (before ++ field :: after))%nat.
Proof.
  intros Hblank.
  assert (E : clean_row isspace (before ++ field :: after)
              = clean_row isspace before ++ clean_row isspace after).
  { rewrite clean_row_app. f_equal.
    change (field :: after) with ([field] ++ after).
    rewrite clean_row_app.
    replace (clean_row isspace [field]) with (@nil (list ascii));
      [reflexivity |].
    symmetry. apply clean_row_empty. constructor; [exact Hblank |].
    constructor. }
  split; [exact E |].
  rewrite E, !length_app. cbn [List.length].
  pose proof (clean_row_length isspace before).
  pose proof (clean_row_length isspace after). lia.
Qed.

Lemma blank_field_vanishes_witness :
  clean_row ascii_isspace [chars "Froome"; chars "  "; chars "12"]
  = [chars "Froome"; chars "12"]
  /\ (List.length (clean_row ascii_isspace
                     [chars "Froome"; chars "  "; chars "12"])
      < 3)%nat.
Proof.
  exact (blank_field_vanishes ascii_isspace [chars "Froome"] [chars "12"]
           (chars "  ") eq_refl).
Defined.

(** [preprocess_cycling_data] returns [None] exactly when the file has no
    field other than white space, whatever the number of its lines; it
    never returns [None] after building a data frame. *)
Theorem preprocess_no_data (isspace : ascii -> bool) (DataFrame : Type)
  (build_frame : list (list ascii) -> list (list (list ascii))
                 -> res DataFrame)
  (reader : list (list (list ascii))) :
  preprocess_cycling_data isspace build_frame reader = Ok None
  <-> Forall (Forall (blank isspace)) reader.
Proof.
  rewrite <- read_rows_empty. unfold preprocess_cycling_data.
  destruct (read_rows isspace reader) as [| header data].
  - split; reflexivity.
  - cbn. destruct (build_frame header data); cbn; split; discriminate.
Qed.

(** The header is the first line that has a field other than white space:
    the lines before it are passed over, and so is every such line among the
    data rows. *)
Theorem preprocess_header (isspace : ascii -> bool) (DataFrame : Type)
  (build_frame : list (list ascii) -> list (list (list ascii))
                 -> res DataFrame)
  (blank_lines : list (list (list ascii))) (line : list (list ascii))
  (rest : list (list (list ascii))) :
  Forall (Forall (blank isspace)) blank_lines ->
  ~ Forall (blank isspace) line ->
  preprocess_cycling_data isspace build_frame (blank_lines ++ line :: rest)
  = (df <- build_frame (clean_row isspace line) (read_rows isspace rest) ;;
     Ok (Some df)).
Proof.
  intros Hblank Hline. unfold preprocess_cycling_data.
  rewrite (read_rows_blank_prefix isspace _ _ Hblank). cbn [read_rows].
  destruct (clean_row isspace line) as [| f fs] eqn:E.
  - exfalso. apply Hline. apply clean_row_empty. exact E.
  - reflexivity.
Qed.

Lemma preprocess_header_witness :
  preprocess_cycling_data ascii_isspace
    (fun header data => Ok (header, data))
    ([[chars " "]; []] ++
     [chars "points"; chars " rider_class "] ::
     [[chars ""]; [chars "12"; chars "GC"]])
  = Ok (Some ([chars "points"; chars "rider_class"],
              [[chars "12"; chars "GC"]])).
Proof.
  exact (preprocess_header ascii_isspace _ (fun header data => Ok (header, data))
           [[chars " "]; []] [chars "points"; chars " rider_class "]
           [[chars ""]; [chars "12"; chars "GC"]]
           ltac:(repeat constructor)
           ltac:(intros H; inversion H as [| ? ? Hb _]; discriminate Hb)).
Defined.

(** ** Groups of two values *)



